(** * Weather_fetch.py: fetch, store, clean and summarise hourly weather data

    A shallow embedding of [src/Weather_fetch.py] and the properties of its
    four stages.

    - Python floats are IEEE 754 binary64 numbers: Rocq's primitive [float],
      whose [nan] is the missing value of pandas.
    - JSON-decoded Python values are the inductive [pyval].
    - The console and the file system are the two components of [world];
      every function of the script is a computation in the monad [M], which
      threads the world and may raise a Python exception.
    - A CSV file is the list of its rows, each the list of its fields; the
      text of a number is not modelled, a numeric field holds the number.
    - A pandas DataFrame is the list of its column labels and the list of
      its rows. *)

From Stdlib Require Import ZArith String Ascii List Floats Bool Lia.
From Stdlib Require Import DecimalString DecimalPos.
From stdpp Require Import base option list gmap strings.
Import ListNotations.
Local Open Scope string_scope.
Local Open Scope list_scope.
Set Warnings "-register-all,-inexact-float".

(** ** Python values and exceptions *)

(** The values [json.loads] builds, without booleans; a JSON integer is held
    by the float of the same value. A [PDict] lists its items in insertion
    order, with no key twice. Strings are sequences of one-byte characters. *)
Inductive pyval : Type :=
| PNone
| PNum (f : float)
| PStr (s : string)
| PList (l : list pyval)
| PDict (items : list (string * pyval)).

Inductive exn : Type :=
| TypeError
| KeyError
| IndexError
| JSONDecodeError
| FileNotFoundError
| EmptyDataError
| ParserError.

Inductive outcome (A : Type) : Type :=
| Ok (a : A)
| Raise (e : exn).
Arguments Ok {A} a.
Arguments Raise {A} e.

#[global] Instance outcome_ret : MRet outcome := fun A a => Ok a.
#[global] Instance outcome_bind : MBind outcome := fun A B f c =>
  match c with
  | Ok a => f a
  | Raise e => Raise e
  end.

(** [bool(v)]: the truth value [if v:] and [not v] test. *)
Definition truthy (v : pyval) : bool :=
  match v with
  | PNone => false
  | PNum f => negb (PrimFloat.eqb f 0%float)
  | PStr s => negb (String.eqb s "")
  | PList l => negb (Nat.eqb (length l) 0)
  | PDict items => negb (Nat.eqb (length items) 0)
  end.

Definition is_key (key : string) (v : pyval) : bool :=
  match v with
  | PStr t => String.eqb key t
  | _ => false
  end.

Fixpoint dict_get (items : list (string * pyval)) (key : string) : option pyval :=
  match items with
  | [] => None
  | (k, v) :: rest => if String.eqb key k then Some v else dict_get rest key
  end.

(** [key in v] for a string [key]. *)
Definition py_contains (key : string) (v : pyval) : outcome bool :=
  match v with
  | PDict items => Ok (bool_decide (is_Some (dict_get items key)))
  | PList l => Ok (existsb (is_key key) l)
  | PStr t => Ok (bool_decide (is_Some (index 0 key t)))
  | PNone | PNum _ => Raise TypeError
  end.

(** [v[key]] for a string [key]. *)
Definition py_getitem (v : pyval) (key : string) : outcome pyval :=
  match v with
  | PDict items =>
      match dict_get items key with
      | Some x => Ok x
      | None => Raise KeyError
      end
  | _ => Raise TypeError
  end.

(** [len(v)]. *)
Definition py_len (v : pyval) : outcome nat :=
  match v with
  | PList l => Ok (length l)
  | PStr s => Ok (String.length s)
  | PDict items => Ok (length items)
  | PNone | PNum _ => Raise TypeError
  end.

(** [v[i]] for an index [i] of [range(n)]. The keys of a decoded JSON object
    are strings, so an integer is never one of them. *)
Definition py_index (v : pyval) (i : nat) : outcome pyval :=
  match v with
  | PList l =>
      match l !! i with
      | Some x => Ok x
      | None => Raise IndexError
      end
  | PStr s =>
      match get i s with
      | Some c => Ok (PStr (String c EmptyString))
      | None => Raise IndexError
      end
  | PDict _ => Raise KeyError
  | PNone | PNum _ => Raise TypeError
  end.

(** ** Files, console and the monad of the script *)

(** One field of a CSV file: nothing between the delimiters, the text of a
    number, other text, or the text [str(v)] of a list or dict [v]. Text that
    spells a number or one of pandas' markers of a missing value is a [FNum]
    or [FEmpty], never a [FText]. *)
Inductive field : Type :=
| FEmpty
| FNum (f : float)
| FText (s : string)
| FRepr (v : pyval).

Abbreviation csv_file := (list (list field)).

Record world : Type := World {
  files : gmap string csv_file;
  stdout : list string
}.

Definition M (A : Type) : Type := world -> outcome A * world.

#[global] Instance M_ret : MRet M := fun A a w => (Ok a, w).
#[global] Instance M_bind : MBind M := fun A B f c w =>
  match c w with
  | (Ok a, w') => f a w'
  | (Raise e, w') => (Raise e, w')
  end.

Definition lift {A : Type} (c : outcome A) : M A := fun w => (c, w).

Definition print (line : string) : M unit :=
  fun w => (Ok tt, World (files w) (stdout w ++ [line])).

(** [open(filename, "w")]: the file is created, or emptied when it exists. *)
Definition open_w (filename : string) : M unit :=
  fun w => (Ok tt, World (<[filename := []]> (files w)) (stdout w)).

(** [writer.writerow(row)] on the file opened as [filename]. *)
Definition writerow (filename : string) (row : list field) : M unit :=
  fun w => (Ok tt,
            World (<[filename := default [] (files w !! filename) ++ [row]]> (files w))
                  (stdout w)).

(** [for x in xs: body(x)]. *)
Fixpoint for_each {A : Type} (xs : list A) (body : A -> M unit) : M unit :=
  match xs with
  | [] => mret tt
  | x :: rest => body x;; for_each rest body
  end.

Definition string_of_Z (z : Z) : string := NilZero.string_of_int (Z.to_int z).

(** ** Part 1: fetch_weather_data *)

(** What [requests.get(URL)] answered: the status code and, when the body is
    JSON, the value [response.json()] decodes it to. *)
Record http_response : Type := Response {
  status_code : Z;
  json_body : option pyval
}.

Definition response_json (response : http_response) : outcome pyval :=
  match json_body response with
  | Some data => Ok data
  | None => Raise JSONDecodeError
  end.

Definition hourly_missing : string :=
  "⚠️ Warning: 'hourly' data missing in API response.".

Definition fetch_error (code : Z) : string :=
  "❌ Error: Unable to fetch data. Status code: " +:+ string_of_Z code.

Definition fetch_weather_data (response : http_response) : M pyval :=
  if Z.eqb (status_code response) 200 then
    data ← lift (response_json response);
    has_hourly ← lift (py_contains "hourly" data);
    has_temperature ←
      (if has_hourly : bool then
         hourly ← lift (py_getitem data "hourly");
         lift (py_contains "temperature_2m" hourly)
       else mret false);
    if has_temperature : bool then
      lift (py_getitem data "hourly")
    else
      print hourly_missing;; mret PNone
  else
    print (fetch_error (status_code response));; mret PNone.

(** ** Part 2: save_to_csv *)

(** The field [csv.writer] writes for a value: nothing for [None] and for the
    empty string, [str(v)] otherwise; the text of [nan] reads as a missing
    value. A string is taken not to spell a number or a marker of a missing
    value, as a time stamp does not. *)
Definition csv_field (v : pyval) : field :=
  match v with
  | PNone => FEmpty
  | PNum f => if is_nan f then FEmpty else FNum f
  | PStr s => if String.eqb s "" then FEmpty else FText s
  | PList _ | PDict _ => FRepr v
  end.

Definition header : list field :=
  [FText "Time"; FText "Temperature"; FText "Humidity"; FText "Wind Speed"].

Definition no_data_to_save : string := "⚠️ No data available to save.".

(** [data[key][i]]. *)
Definition item (data : pyval) (key : string) (i : nat) : outcome pyval :=
  column ← py_getitem data key; py_index column i.

(** One turn of the loop: the row of index [i]. *)
Definition write_row (data : pyval) (filename : string) (i : nat) : M unit :=
  t ← lift (item data "time" i);
  temperature ← lift (item data "temperature_2m" i);
  humidity ← lift (item data "relative_humidity_2m" i);
  wind ← lift (item data "wind_speed_10m" i);
  writerow filename (map csv_field [t; temperature; humidity; wind]).

Definition saved_message (filename : string) : string :=
  "✅ Weather data saved to " +:+ filename.

Definition save_to_csv (data : pyval) (filename : string) : M unit :=
  if negb (truthy data) then
    print no_data_to_save
  else
    open_w filename;;
    writerow filename header;;
    time ← lift (py_getitem data "time");
    n ← lift (py_len time);
    for_each (seq 0 n) (write_row data filename);;
    print (saved_message filename).

(** ** Part 3: clean_data *)

(** *** pandas: reading a CSV file into a DataFrame *)

(** A cell of a DataFrame: a float ([nan] when the value is missing), or, in
    a column of dtype object, the text of the field as a Python string. *)
Inductive value : Type :=
| VFloat (f : float)
| VObj (fld : field).

(** Labels are kept as the header row gives them; pandas renames an empty or
    a repeated label, which is not modelled. *)
Record DataFrame : Type := Frame {
  columns : list field;
  rows : list (list value)
}.

Definition blank (row : list field) : bool := Nat.eqb (length row) 0.

Definition numeric (fld : field) : bool :=
  match fld with
  | FEmpty | FNum _ => true
  | FText _ | FRepr _ => false
  end.

(** Field [j] of a row; a row shorter than the header misses its last fields. *)
Definition cell (j : nat) (row : list field) : field := nth j row FEmpty.

(** Type inference: a column is parsed as floats when each of its fields is
    a number or missing, and is left as strings otherwise. Not modelled:
    pandas reads a column of the words True and False as booleans, and keeps
    as strings a column that holds an integer beyond 64 bits. *)
Definition numeric_column (body : list (list field)) (j : nat) : bool :=
  forallb (fun row => numeric (cell j row)) body.

Definition parse (as_float : bool) (fld : field) : value :=
  match fld with
  | FEmpty => VFloat nan
  | FNum f => if as_float || is_nan f then VFloat f else VObj fld
  | FText _ | FRepr _ => VObj fld
  end.

Definition parse_row (body : list (list field)) (width : nat) (row : list field) : list value :=
  map (fun j => parse (numeric_column body j) (cell j row)) (seq 0 width).

(** [pd.read_csv] on the content of a file: blank lines are skipped, the
    first line left is the header, a line with fewer fields than the header
    misses its last values, a line with more fields is refused (pandas takes
    the first column for the index when every line has one field more, which
    is not modelled). *)
Definition read_frame (file : csv_file) : outcome DataFrame :=
  match List.filter (fun row => negb (blank row)) file with
  | [] => Raise EmptyDataError
  | labels :: body =>
      if forallb (fun row => Nat.leb (length row) (length labels)) body then
        Ok (Frame labels (map (parse_row body (length labels)) body))
      else Raise ParserError
  end.

Definition read_csv (path : string) : M DataFrame :=
  fun w =>
    match files w !! path with
    | Some file => (read_frame file, w)
    | None => (Raise FileNotFoundError, w)
    end.

(** *** pandas: columns, comparisons, boolean indexing *)

Definition labelled (name : string) (label : field) : bool :=
  match label with
  | FText s => String.eqb s name
  | _ => false
  end.

Fixpoint position (name : string) (labels : list field) : option nat :=
  match labels with
  | [] => None
  | label :: rest =>
      if labelled name label then Some 0%nat
      else S <$> position name rest
  end.

Definition at_column (j : nat) (row : list value) : value := nth j row (VFloat nan).

(** [df[name]]. *)
Definition getcol (df : DataFrame) (name : string) : outcome (list value) :=
  match position name (columns df) with
  | Some j => Ok (map (at_column j) (rows df))
  | None => Raise KeyError
  end.

(** One comparison of a cell with a number: a string cannot be compared. *)
Definition compare_with (test : float -> bool) (v : value) : outcome bool :=
  match v with
  | VFloat f => Ok (test f)
  | VObj _ => Raise TypeError
  end.

(** [series >= x] and [series <= x]. *)
Definition ge (series : list value) (x : float) : outcome (list bool) :=
  mapM (compare_with (fun f => PrimFloat.leb x f)) series.

Definition le (series : list value) (x : float) : outcome (list bool) :=
  mapM (compare_with (fun f => PrimFloat.leb f x)) series.

(** [df[mask]]. *)
Fixpoint boolean_index {A : Type} (xs : list A) (mask : list bool) : list A :=
  match xs, mask with
  | x :: xs', b :: mask' =>
      if b then x :: boolean_index xs' mask' else boolean_index xs' mask'
  | _, _ => []
  end.

(** [df[(df[name] >= lo) & (df[name] <= hi)]]. *)
Definition between (df : DataFrame) (name : string) (lo hi : float) : outcome DataFrame :=
  lower ← (series ← getcol df name; ge series lo);
  upper ← (series ← getcol df name; le series hi);
  Ok (Frame (columns df) (boolean_index (rows df) (zip_with andb lower upper))).

(** *** pandas: mean and fillna *)

(** The values of a series that are not missing. *)
Fixpoint dropna (series : list value) : outcome (list float) :=
  match series with
  | [] => Ok []
  | VFloat f :: rest =>
      xs ← dropna rest; Ok (if is_nan f then xs else f :: xs)
  | VObj _ :: _ => Raise TypeError
  end.

(** [float(n)], the float nearest to the integer [n]. *)
Definition float_of_Z (n : Z) : float := SF2Prim (binary_normalize prec emax n 0 false).

Definition total (xs : list float) : float := fold_left PrimFloat.add xs 0%float.

(** [series.mean()]: missing values are skipped and the mean of no value is
    [nan]. The sum is taken from left to right starting at zero: the order
    numpy adds in, which changes the last bits of a long sum, and the sign of
    a zero sum are not modelled. *)
Definition mean (series : list value) : outcome float :=
  xs ← dropna series;
  Ok (if Nat.eqb (length xs) 0 then nan
      else PrimFloat.div (total xs) (float_of_Z (Z.of_nat (length xs)))).

Definition fill (m : float) (v : value) : value :=
  match v with
  | VFloat f => if is_nan f then VFloat m else v
  | VObj _ => v
  end.

(** [df[name] = df[name].fillna(m)]. *)
Definition fillna (df : DataFrame) (name : string) (m : float) : outcome DataFrame :=
  match position name (columns df) with
  | Some j => Ok (Frame (columns df) (map (alter (fill m) j) (rows df)))
  | None => Raise KeyError
  end.

(** [df.to_csv(path, index=False)]: a missing value is written as nothing. *)
Definition to_field (v : value) : field :=
  match v with
  | VFloat f => if is_nan f then FEmpty else FNum f
  | VObj fld => fld
  end.

Definition to_csv (df : DataFrame) (path : string) : M unit :=
  fun w => (Ok tt,
            World (<[path := columns df :: map (map to_field) (rows df)]> (files w))
                  (stdout w)).

(** *** The cleaner *)

(** The three filters of [clean_data]. *)
Definition remove_invalid (df : DataFrame) : outcome DataFrame :=
  df ← between df "Temperature" 0 60;
  df ← between df "Humidity" 0 80;
  between df "Wind Speed" 3 150.

(** [df[numeric_columns] = df[numeric_columns].fillna(df[numeric_columns].mean())]. *)
Definition fill_missing (df : DataFrame) : outcome DataFrame :=
  temperature ← (series ← getcol df "Temperature"; mean series);
  humidity ← (series ← getcol df "Humidity"; mean series);
  wind ← (series ← getcol df "Wind Speed"; mean series);
  df ← fillna df "Temperature" temperature;
  df ← fillna df "Humidity" humidity;
  fillna df "Wind Speed" wind.

Definition cleaned_message (output_file : string) : string :=
  "✅ Cleaned data saved to " +:+ output_file.

Definition clean_data (input_file output_file : string) : M unit :=
  df ← read_csv input_file;
  df ← lift (remove_invalid df);
  df ← lift (fill_missing df);
  to_csv df output_file;;
  print (cleaned_message output_file).

(** ** Part 4: summarize_data *)

(** *** Python: the format [.2f] *)

(** A number of the summary: [len(df)] is an int, the statistics are floats. *)
Inductive number : Type :=
| Int (n : Z)
| Float (f : float).

Definition digit (d : Z) : ascii := ascii_of_nat (48 + Z.to_nat d).

(** The integer nearest to [num / den], the even one of two at equal distance. *)
Definition round_half_even (num den : Z) : Z :=
  let q := (num / den)%Z in
  let r := (num mod den)%Z in
  if (2 * r <? den)%Z then q
  else if (2 * r =? den)%Z then (if Z.even q then q else q + 1)%Z
  else (q + 1)%Z.

(** A sign and a number of hundredths, written with two decimals. *)
Definition fixed2 (negative : bool) (hundredths : Z) : string :=
  (if negative then "-" else "")
  +:+ string_of_Z (hundredths / 100)
  +:+ String "." (String (digit (hundredths / 10 mod 10))
                 (String (digit (hundredths mod 10)) EmptyString)).

(** The magnitude [m * 2^e] in hundredths, correctly rounded. *)
Definition hundredths (m : positive) (e : Z) : Z :=
  if (0 <=? e)%Z then (Z.pos m * 2 ^ e * 100)%Z
  else round_half_even (Z.pos m * 100) (2 ^ (- e)).

Definition format_sf (x : spec_float) : string :=
  match x with
  | S754_nan => "nan"
  | S754_infinity negative => if negative then "-inf" else "inf"
  | S754_zero negative => fixed2 negative 0
  | S754_finite negative m e => fixed2 negative (hundredths m e)
  end.

(** [f"{x:.2f}"]; an int is converted to a float first (Python raises on an
    int beyond the largest float, which the length of a table never is). *)
Definition format_2f (x : number) : string :=
  match x with
  | Int n => format_sf (Prim2SF (float_of_Z n))
  | Float f => format_sf (Prim2SF f)
  end.

(** *** pandas: max and min *)

(** Of two values that compare equal, a zero and the zero of the other sign,
    the first met is kept; numpy may return the other one. *)

Definition larger (a b : float) : float := if PrimFloat.ltb a b then b else a.
Definition smaller (a b : float) : float := if PrimFloat.ltb b a then b else a.

Definition reduce (op : float -> float -> float) (xs : list float) : float :=
  match xs with
  | [] => nan
  | x :: rest => fold_left op rest x
  end.

(** [series.max()] and [series.min()]: missing values are skipped, and the
    result for no value is [nan]. *)
Definition max (series : list value) : outcome float :=
  xs ← dropna series; Ok (reduce larger xs).

Definition min (series : list value) : outcome float :=
  xs ← dropna series; Ok (reduce smaller xs).

(** [df.empty]. *)
Definition empty (df : DataFrame) : bool :=
  Nat.eqb (length (rows df)) 0 || Nat.eqb (length (columns df)) 0.

(** *** The summarizer *)

(** The dict [summary], in insertion order. *)
Definition summary (df : DataFrame) : outcome (list (string * number)) :=
  avg_temperature ← (series ← getcol df "Temperature"; mean series);
  max_temperature ← (series ← getcol df "Temperature"; max series);
  min_temperature ← (series ← getcol df "Temperature"; min series);
  avg_humidity ← (series ← getcol df "Humidity"; mean series);
  avg_wind ← (series ← getcol df "Wind Speed"; mean series);
  Ok [("Total Records", Int (Z.of_nat (length (rows df))));
      ("Avg Temperature", Float avg_temperature);
      ("Max Temperature", Float max_temperature);
      ("Min Temperature", Float min_temperature);
      ("Avg Humidity", Float avg_humidity);
      ("Avg Wind Speed", Float avg_wind)].

Definition no_data_to_summarize : string := "⚠️ No data available to summarize.".

Definition summary_title : string :=
  String (ascii_of_nat 10) "📊 Weather Data Summary 📊".

Definition summary_line (entry : string * number) : string :=
  fst entry +:+ ": " +:+ format_2f (snd entry).

Definition summarize_data (filename : string) : M unit :=
  df ← read_csv filename;
  if empty df then
    print no_data_to_summarize
  else
    entries ← lift (summary df);
    print summary_title;;
    for_each entries (fun entry => print (summary_line entry)).

(** ** The pipeline *)

Definition main (response : http_response) : M unit :=
  weather_data ← fetch_weather_data response;
  if truthy weather_data then
    save_to_csv weather_data "weather_data.csv";;
    clean_data "weather_data.csv" "cleaned_data.csv";;
    summarize_data "cleaned_data.csv"
  else mret tt.

(** ** Vocabulary of the properties *)

(** The ValidationRule intervals, on a field of a file and on a cell of a
    DataFrame: a missing value and a text are in no interval. *)
Definition in_range (lo hi : float) (fld : field) : bool :=
  match fld with
  | FNum f => PrimFloat.leb lo f && PrimFloat.leb f hi
  | _ => false
  end.

Definition within (lo hi : float) (v : value) : bool :=
  match v with
  | VFloat f => PrimFloat.leb lo f && PrimFloat.leb f hi
  | VObj _ => false
  end.

(** A row of a file under [header] that passes the three range checks. *)
Definition valid (row : list field) : bool :=
  in_range 0 60 (cell 1 row) && in_range 0 80 (cell 2 row) && in_range 3 150 (cell 3 row).

(** A field as a file holds it: the text of [nan] is a missing value, so a
    numeric field is never [nan]. *)
Definition canonical (fld : field) : bool :=
  match fld with
  | FNum f => negb (is_nan f)
  | _ => true
  end.



(** The rows [save_to_csv] writes for four sequences. *)
Fixpoint table (time temperature humidity wind : list pyval) : list (list field) :=
  match time, temperature, humidity, wind with
  | t :: time', a :: temperature', b :: humidity', c :: wind' =>
      map csv_field [t; a; b; c] :: table time' temperature' humidity' wind'
  | _, _, _, _ => []
  end.







Definition is_float (v : value) : bool :=
  match v with
  | VFloat _ => true
  | VObj _ => false
  end.

(** The result of comparing a cell with a number when the comparison is
    defined. *)
Definition holds (test : float -> bool) (v : value) : bool :=
  match v with
  | VFloat f => test f
  | VObj _ => false
  end.

(** A row of a DataFrame read under [header] that passes the three range
    checks. *)
Definition passes (row : list value) : bool :=
  within 0 60 (at_column 1 row) && within 0 80 (at_column 2 row) && within 3 150 (at_column 3 row).

(** What [clean_data] writes for the content of its input file. *)
Definition cleaned (file : csv_file) : outcome csv_file :=
  df ← read_frame file;
  df ← remove_invalid df;
  df ← fill_missing df;
  Ok (columns df :: map (map to_field) (rows df)).

(** The data rows of a file under its header: blank lines are no rows. *)
Definition data_rows (body : list (list field)) : list (list field) :=
  List.filter (fun row => negb (blank row)) body.

(** A row of a cleaned file: any Time field and three numbers, each inside
    its interval. *)
Definition row_in_range (row : list field) : Prop :=
  exists (t : field) (a b c : float),
    row = [t; FNum a; FNum b; FNum c] /\
    (PrimFloat.leb 0 a = true /\ PrimFloat.leb a 60 = true) /\
    (PrimFloat.leb 0 b = true /\ PrimFloat.leb b 80 = true) /\
    (PrimFloat.leb 3 c = true /\ PrimFloat.leb c 150 = true).

(** ** Sample inputs *)

(** The batch of the specification's first scenario, and a fourth
    observation whose temperature is missing. *)
Definition sample_rows : list (list field) :=
  [[FText "t0"; FNum 20; FNum 50; FNum 10];
   [FText "t1"; FNum 999; FNum 40; FNum 20];
   [FText "t2"; FEmpty; FNum 30; FNum 30]].

Definition sample_world : world :=
  World {["weather_data.csv" := header :: sample_rows]} [].

(** The row [save_to_csv] writes at index [i]. *)
Definition row_at (time temperature humidity wind : list pyval) (i : nat) : list field :=
  map csv_field [nth i time PNone; nth i temperature PNone;
                 nth i humidity PNone; nth i wind PNone].

Definition sample_batch : pyval :=
  PDict [("time", PList [PStr "t0"; PStr "t1"; PStr "t2"]);
         ("temperature_2m", PList [PNum 20; PNum 999; PNone]);
         ("relative_humidity_2m", PList [PNum 50; PNum 40; PNum 30]);
         ("wind_speed_10m", PList [PNum 10; PNum 20; PNum 30])].

(** A batch with every value inside its interval. *)
Definition valid_batch : pyval :=
  PDict [("time", PList [PStr "t0"; PStr "t1"]);
         ("temperature_2m", PList [PNum 20; PNum 21.5]);
         ("relative_humidity_2m", PList [PNum 50; PNum 40]);
         ("wind_speed_10m", PList [PNum 10; PNum 3])].

(** The number of data rows of a file: its lines that are not blank, less
    the header. *)
Definition records (file : csv_file) : nat :=
  length (tl (List.filter (fun row => negb (blank row)) file)).



(** The cleaned file of the specification's third scenario. *)
Definition three_rows_world : world :=
  World {["cleaned_data.csv" :=
            [header;
             [FText "t0"; FNum 10; FNum 50; FNum 10];
             [FText "t1"; FNum 20; FNum 40; FNum 20];
             [FText "t2"; FNum 30; FNum 30; FNum 30]]]} [].

(** A response of status 200 that carries [sample_batch]. *)
Definition sample_response : http_response :=
  Response 200 (Some (PDict [("latitude", PNum 52.5); ("hourly", sample_batch)])).

(** A batch whose temperature sequence is one value short. *)
Definition short_batch : pyval :=
  PDict [("time", PList [PStr "t0"; PStr "t1"]);
         ("temperature_2m", PList [PNum 20]);
         ("relative_humidity_2m", PList [PNum 50; PNum 40]);
         ("wind_speed_10m", PList [PNum 10; PNum 20])].

(** A batch with more values than time stamps. *)
Definition long_batch : pyval :=
  PDict [("time", PList [PStr "t0"]);
         ("temperature_2m", PList [PNum 20; PNum 21]);
         ("relative_humidity_2m", PList [PNum 50; PNum 40]);
         ("wind_speed_10m", PList [PNum 10])].

(** A raw file with a word where a temperature should be. *)
Definition text_world : world :=
  World {["weather_data.csv" :=
            [header; [FText "t0"; FText "unknown"; FNum 50; FNum 10];
                     [FText "t1"; FNum 20; FNum 50; FNum 10]]]} [].

(** A file with no Temperature column. *)
Definition other_header_world : world :=
  World {["weather_data.csv" :=
            [[FText "Time"; FText "Pressure"]; [FText "t0"; FNum 1013]]]} [].

(** The dict [summary] for a number of records and five statistics. *)
Definition summary_of (count : nat) (avg_temperature max_temperature min_temperature
                                     avg_humidity avg_wind : float) :
    list (string * number) :=
  [("Total Records", Int (Z.of_nat count));
   ("Avg Temperature", Float avg_temperature);
   ("Max Temperature", Float max_temperature);
   ("Min Temperature", Float min_temperature);
   ("Avg Humidity", Float avg_humidity);
   ("Avg Wind Speed", Float avg_wind)].


(** ** Tables that pandas reads as the model does *)

Fixpoint has_colon (s : string) : bool :=
  match s with
  | EmptyString => false
  | String c rest => Ascii.eqb c ":" || has_colon rest
  end.

Definition is_letter (c : ascii) : bool :=
  let n := nat_of_ascii c in
  (Nat.leb 65 n && Nat.leb n 90) || (Nat.leb 97 n && Nat.leb n 122).

(** The words [pd.read_csv] reads as booleans. *)
Definition boolean_words : list string :=
  ["True"; "TRUE"; "true"; "False"; "FALSE"; "false"].

Definition is_printable (c : ascii) : bool :=
  let n := nat_of_ascii c in Nat.leb 32 n && Nat.leb n 126.

Fixpoint all_printable (s : string) : bool :=
  match s with
  | EmptyString => true
  | String c rest => is_printable c && all_printable rest
  end.

(** A text [pd.read_csv] keeps as a string whatever stands beside it: it is
    made of printable ASCII characters, and it has a colon in it, as the
    time stamps of the API have ([2024-01-01T00:00]), or it begins with a
    letter other than [i], [I], [n] and [N] and is no boolean word. A number
    begins with a digit, a sign, a point or the first letter of [inf] or
    [nan], and the markers of a missing value that begin with a letter begin
    with [n] or [N]; none has a colon. *)
Definition plain_text (s : string) : bool :=
  all_printable s &&
  (has_colon s ||
   match s with
   | EmptyString => false
   | String c _ =>
       is_letter c
       && negb (existsb (Ascii.eqb c) ["i"; "I"; "n"; "N"]%char)
       && negb (existsb (String.eqb s) boolean_words)
   end).

(** A float below 2^63 in magnitude: the text of an integer beyond 64 bits,
    which pandas keeps as a string, spells none. *)
Definition below_2_63 (f : float) : bool :=
  PrimFloat.ltb (PrimFloat.abs f) 9223372036854775808%float.

(** A field of a numeric column that pandas reads as a float: nothing, or a
    number below 2^63 in magnitude. *)
Definition float_field (fld : field) : bool :=
  match fld with
  | FEmpty => true
  | FNum f => below_2_63 f
  | FText _ | FRepr _ => false
  end.







(** * Properties *)

(** ** Runs on the sample inputs *)

(** A missing value compares false with every bound. *)
Example nan_in_no_range :
  (PrimFloat.leb 0 nan, PrimFloat.leb nan 60, within 0 60 (VFloat nan)) = (false, false, false).
Proof. reflexivity. Qed.

Example format_2f_samples :
  map format_2f [Float 20.5; Float 0.125; Float 0.375; Float 2.675; Float (-0.001);
                 Int 3; Float nan; Float infinity] =
  ["20.50"; "0.12"; "0.38"; "2.67"; "-0.00"; "3.00"; "nan"; "inf"].
Proof. vm_compute. reflexivity. Qed.

(** The first scenario of the specification, with a third observation whose
    temperature is missing: the writer emits three rows, the cleaner keeps the
    first one only. *)
Example pipeline_sample :
  main (Response 200 (Some (PDict [("hourly", sample_batch)]))) (World ∅ []) =
  (Ok tt,
   World {["weather_data.csv" := header :: sample_rows;
           "cleaned_data.csv" := [header; [FText "t0"; FNum 20; FNum 50; FNum 10]]]}
         [saved_message "weather_data.csv"; cleaned_message "cleaned_data.csv";
          summary_title; "Total Records: 1.00"; "Avg Temperature: 20.00";
          "Max Temperature: 20.00"; "Min Temperature: 20.00";
          "Avg Humidity: 50.00"; "Avg Wind Speed: 10.00"]).
Proof. vm_compute. reflexivity. Qed.

(** A sequence shorter than [time] stops the writer with an IndexError after
    the rows before it. *)
Example save_to_csv_short_sequence :
  save_to_csv (PDict [("time", PList [PStr "t0"; PStr "t1"]);
                      ("temperature_2m", PList [PNum 20]);
                      ("relative_humidity_2m", PList [PNum 50; PNum 40]);
                      ("wind_speed_10m", PList [PNum 10; PNum 20])])
              "weather_data.csv" (World ∅ []) =
  (Raise IndexError,
   World {["weather_data.csv" := [header; [FText "t0"; FNum 20; FNum 50; FNum 10]]]} []).
Proof. vm_compute. reflexivity. Qed.

(** A text in a numeric column makes the column strings, and the comparison
    with a number a TypeError. *)
Example clean_data_text_in_column :
  fst (clean_data "weather_data.csv" "cleaned_data.csv"
         (World {["weather_data.csv" :=
                    [header; [FText "t0"; FText "unknown"; FNum 50; FNum 10];
                             [FText "t1"; FNum 20; FNum 50; FNum 10]]]} [])) =
  Raise TypeError.
Proof. vm_compute. reflexivity. Qed.

(** ** Facts on floats *)

Lemma SFcompare_nan_r (x : spec_float) : SFcompare x S754_nan = None.
Proof. by destruct x. Qed.

Lemma SFeqb_refl (x : spec_float) : x <> S754_nan -> SFeqb x x = true.
Proof.
  intros Hx. unfold SFeqb. destruct x as [s|s| |s m e]; simpl; try done.
  - by destruct s.
  - destruct s; rewrite Z.compare_refl, Pos.compare_cont_refl; done.
Qed.

Lemma is_nan_spec (f : float) : is_nan f = false <-> Prim2SF f <> S754_nan.
Proof.
  unfold is_nan. rewrite FloatAxioms.eqb_spec. split.
  - intros H E. rewrite E in H. done.
  - intros H. by rewrite SFeqb_refl.
Qed.

Lemma leb_not_nan_r (x f : float) : PrimFloat.leb x f = true -> is_nan f = false.
Proof.
  rewrite FloatAxioms.leb_spec. intros H. apply is_nan_spec. intros E.
  rewrite E in H. unfold SFleb in H. by rewrite SFcompare_nan_r in H.
Qed.

Lemma leb_not_nan_l (f x : float) : PrimFloat.leb f x = true -> is_nan f = false.
Proof.
  rewrite FloatAxioms.leb_spec. intros H. apply is_nan_spec. intros E.
  rewrite E in H. done.
Qed.

Lemma within_not_nan lo hi f : within lo hi (VFloat f) = true -> is_nan f = false.
Proof. simpl. intros [H _]%andb_true_iff. by eapply leb_not_nan_r. Qed.
(** ** Series and boolean indexing *)

Lemma within_holds lo hi v :
  within lo hi v = holds (fun f => PrimFloat.leb lo f) v && holds (fun f => PrimFloat.leb f hi) v.
Proof. by destruct v. Qed.

Lemma compare_all_inv test series bs :
  mapM (compare_with test) series = Ok bs ->
  Forall (fun v => is_float v = true) series /\ bs = map (holds test) series.
Proof.
  revert bs. induction series as [|v series IH]; intros bs; simpl.
  - intros [= <-]. by split.
  - destruct v as [f|fld]; simpl; [|done].
    destruct (mapM (compare_with test) series) as [bs'|e] eqn:E; simpl; [|done].
    intros [= <-]. destruct (IH bs' eq_refl) as [H1 H2].
    split; [by constructor | by rewrite H2].
Qed.

Lemma compare_all_floats test series :
  Forall (fun v => is_float v = true) series ->
  mapM (compare_with test) series = Ok (map (holds test) series).
Proof.
  induction 1 as [|v series Hv _ IH]; [done|].
  simpl. destruct v; [|done]. simpl. by rewrite IH.
Qed.

Lemma boolean_index_map {A} (p : A -> bool) (xs : list A) :
  boolean_index xs (map p xs) = List.filter p xs.
Proof. induction xs as [|x xs IH]; simpl; [done|]. by rewrite IH. Qed.

Lemma zip_with_andb_map {A} (p q : A -> bool) (xs : list A) :
  zip_with andb (map p xs) (map q xs) = map (fun x => p x && q x) xs.
Proof. induction xs as [|x xs IH]; simpl; [done|]. by rewrite IH. Qed.

Lemma between_inv df name lo hi df' j :
  position name (columns df) = Some j ->
  between df name lo hi = Ok df' ->
  Forall (fun row => is_float (at_column j row) = true) (rows df) /\
  df' = Frame (columns df) (List.filter (fun row => within lo hi (at_column j row)) (rows df)).
Proof.
  intros Hj. unfold between, getcol. rewrite Hj. simpl. unfold ge, le.
  destruct (mapM (compare_with (fun f => PrimFloat.leb lo f)) _) as [lower|e] eqn:E1;
    simpl; [|done].
  apply compare_all_inv in E1 as [Hfl ->].
  rewrite compare_all_floats by done. simpl.
  intros [= <-]. split.
  - by apply Forall_map in Hfl.
  - f_equal. rewrite !map_map, zip_with_andb_map, boolean_index_map.
    apply List.filter_ext. intros row. by rewrite within_holds.
Qed.

(** ** The three filters and the imputation on a DataFrame *)

Lemma filter_filter {A} (p q : A -> bool) (xs : list A) :
  List.filter q (List.filter p xs) = List.filter (fun x => p x && q x) xs.
Proof.
  induction xs as [|x xs IH]; simpl; [done|].
  destruct (p x); simpl; [|done]. destruct (q x); by rewrite IH.
Qed.


Lemma remove_invalid_inv df df' :
  columns df = header ->
  remove_invalid df = Ok df' ->
  df' = Frame header (List.filter passes (rows df)) /\
  Forall (fun row => is_float (at_column 1 row) = true) (rows df) /\
  Forall (fun row => is_float (at_column 2 row) = true)
         (List.filter (fun row => within 0 60 (at_column 1 row)) (rows df)) /\
  Forall (fun row => is_float (at_column 3 row) = true)
         (List.filter (fun row => within 0 60 (at_column 1 row) && within 0 80 (at_column 2 row))
                      (rows df)).
Proof.
  destruct df as [labels body]. simpl. intros ->. unfold remove_invalid.
  destruct (between _ "Temperature" _ _) as [df1|e] eqn:E1; simpl; [|done].
  apply (between_inv _ _ _ _ _ 1) in E1 as [H1 ->]; [|done].
  destruct (between _ "Humidity" _ _) as [df2|e] eqn:E2; simpl; [|done].
  apply (between_inv _ _ _ _ _ 2) in E2 as [H2 ->]; [|done].
  intros E3. apply (between_inv _ _ _ _ _ 3) in E3 as [H3 ->]; [|done].
  cbn [rows columns] in *. rewrite filter_filter in H3. rewrite !filter_filter.
  repeat split; try done. f_equal. apply List.filter_ext. intros row.
  unfold passes. by rewrite andb_assoc.
Qed.


Lemma dropna_floats series :
  Forall (fun v => is_float v = true) series -> exists xs, dropna series = Ok xs.
Proof.
  induction 1 as [|v series Hv _ [xs IH]]; [by exists []|].
  destruct v; [|done]. simpl. rewrite IH. simpl. eauto.
Qed.

Lemma mean_floats series :
  Forall (fun v => is_float v = true) series -> exists m, mean series = Ok m.
Proof.
  intros [xs E]%dropna_floats. unfold mean. rewrite E. simpl. eauto.
Qed.

Lemma within_is_float lo hi v : within lo hi v = true -> is_float v = true.
Proof. by destruct v. Qed.

Lemma alter_fill_within lo hi m j (row : list value) :
  within lo hi (at_column j row) = true -> alter (fill m) j row = row.
Proof.
  unfold at_column. revert j. induction row as [|v row IH]; intros [|j]; simpl; try done.
  - destruct v as [f|]; [|done]. intros H. simpl.
    by rewrite (within_not_nan _ _ _ H).
  - intros H. f_equal. by apply IH.
Qed.

Lemma passes_inv row :
  passes row = true ->
  within 0 60 (at_column 1 row) = true /\
  within 0 80 (at_column 2 row) = true /\
  within 3 150 (at_column 3 row) = true.
Proof. unfold passes. by intros [[H1 H2]%andb_true_iff H3]%andb_true_iff. Qed.

Lemma fillna_passes df name m lo hi j :
  position name (columns df) = Some j ->
  Forall (fun row => within lo hi (at_column j row) = true) (rows df) ->
  fillna df name m = Ok df.
Proof.
  destruct df as [labels body]. simpl. intros Hj H. unfold fillna. simpl. rewrite Hj.
  do 2 f_equal. induction H as [|row body Hrow _ IH]; simpl; [done|].
  by rewrite IH, (alter_fill_within _ _ _ _ _ Hrow).
Qed.

Lemma getcol_at df name j :
  position name (columns df) = Some j -> getcol df name = Ok (map (at_column j) (rows df)).
Proof. unfold getcol. by intros ->. Qed.

Lemma fill_missing_passes body :
  Forall (fun row => passes row = true) body ->
  fill_missing (Frame header body) = Ok (Frame header body).
Proof.
  intros H.
  assert (H1 : Forall (fun row => within 0 60 (at_column 1 row) = true) body).
  { eapply Forall_impl; [exact H|]. intros row Hr. by apply passes_inv in Hr as (?&?&?). }
  assert (H2 : Forall (fun row => within 0 80 (at_column 2 row) = true) body).
  { eapply Forall_impl; [exact H|]. intros row Hr. by apply passes_inv in Hr as (?&?&?). }
  assert (H3 : Forall (fun row => within 3 150 (at_column 3 row) = true) body).
  { eapply Forall_impl; [exact H|]. intros row Hr. by apply passes_inv in Hr as (?&?&?). }
  unfold fill_missing.
  rewrite (getcol_at _ "Temperature" 1), (getcol_at _ "Humidity" 2),
    (getcol_at _ "Wind Speed" 3) by done.
  cbn [columns rows mbind outcome_bind].
  destruct (mean_floats (map (at_column 1) body)) as [m1 ->].
  { apply Forall_map. eapply Forall_impl; [exact H1|]. intros ?. apply within_is_float. }
  destruct (mean_floats (map (at_column 2) body)) as [m2 ->].
  { apply Forall_map. eapply Forall_impl; [exact H2|]. intros ?. apply within_is_float. }
  destruct (mean_floats (map (at_column 3) body)) as [m3 ->].
  { apply Forall_map. eapply Forall_impl; [exact H3|]. intros ?. apply within_is_float. }
  cbn [mbind outcome_bind].
  rewrite (fillna_passes _ "Temperature" m1 0 60 1) by done. cbn [mbind outcome_bind].
  rewrite (fillna_passes _ "Humidity" m2 0 80 2) by done. cbn [mbind outcome_bind].
  by rewrite (fillna_passes _ "Wind Speed" m3 3 150 3).
Qed.
(** ** The cleaner on the content of a file *)

Lemma clean_data_run input_file output_file w :
  clean_data input_file output_file w =
  match files w !! input_file with
  | None => (Raise FileNotFoundError, w)
  | Some file =>
      match cleaned file with
      | Ok out => (Ok tt, World (<[output_file := out]> (files w))
                                (stdout w ++ [cleaned_message output_file]))
      | Raise e => (Raise e, w)
      end
  end.
Proof.
  unfold clean_data, cleaned, read_csv, mbind, M_bind, lift, outcome_bind.
  destruct (files w !! input_file) as [file|]; [|done].
  destruct (read_frame file) as [df|]; [|done].
  destruct (remove_invalid df) as [df1|]; [|done].
  by destruct (fill_missing df1) as [df2|].
Qed.

Lemma read_frame_header body :
  read_frame (header :: body) =
  if forallb (fun row => Nat.leb (length row) 4) (data_rows body)
  then Ok (Frame header (map (parse_row (data_rows body) 4) (data_rows body)))
  else Raise ParserError.
Proof. done. Qed.

Lemma leb_nan_r (x : float) : PrimFloat.leb x nan = false.
Proof. rewrite FloatAxioms.leb_spec. unfold SFleb. by rewrite SFcompare_nan_r. Qed.

Lemma within_parse lo hi b fld :
  is_float (parse b fld) = true -> within lo hi (parse b fld) = in_range lo hi fld.
Proof.
  destruct fld as [|f| |]; simpl; try done.
  - intros _. by rewrite leb_nan_r.
  - by destruct (b || is_nan f).
Qed.

Lemma in_range_canonical lo hi fld : in_range lo hi fld = true -> canonical fld = true.
Proof.
  destruct fld as [|f| |]; simpl; try done.
  intros [H _]%andb_true_iff. by rewrite (leb_not_nan_r _ _ H).
Qed.

Lemma to_field_parse b fld : canonical fld = true -> to_field (parse b fld) = fld.
Proof.
  destruct fld as [|f| |]; simpl; try done.
  intros H%negb_true_iff. rewrite H, orb_false_r. destruct b; simpl; [|done].
  by rewrite H.
Qed.

Lemma parse_numeric fld : numeric fld = true -> is_float (parse true fld) = true.
Proof. by destruct fld. Qed.

Section Rows.
(** The rows of a frame read under [header], as a function of the rows of
    the file. *)
Variable body : list (list field).

Local Abbreviation P := (parse_row body 4).

Lemma at_column_parse_row row j :
  (j < 4)%nat -> at_column j (P row) = parse (numeric_column body j) (cell j row).
Proof.
  intros Hj. destruct j as [|[|[|[|j]]]]; try done. lia.
Qed.

Lemma passes_parse_row row :
  is_float (at_column 1 (P row)) = true ->
  (in_range 0 60 (cell 1 row) = true -> is_float (at_column 2 (P row)) = true) ->
  (in_range 0 60 (cell 1 row) = true -> in_range 0 80 (cell 2 row) = true ->
   is_float (at_column 3 (P row)) = true) ->
  passes (P row) = valid row.
Proof.
  unfold passes, valid. rewrite !at_column_parse_row by lia.
  intros H1 H2 H3. rewrite within_parse by done.
  destruct (in_range 0 60 (cell 1 row)); [|done].
  rewrite (within_parse 0 80) by auto.
  destruct (in_range 0 80 (cell 2 row)); [|done].
  by rewrite (within_parse 3 150) by auto.
Qed.

Lemma filter_passes_rows (l : list (list field)) :
  Forall (fun row => is_float (at_column 1 row) = true) (map P l) ->
  Forall (fun row => is_float (at_column 2 row) = true)
         (List.filter (fun row => within 0 60 (at_column 1 row)) (map P l)) ->
  Forall (fun row => is_float (at_column 3 row) = true)
         (List.filter (fun row => within 0 60 (at_column 1 row) && within 0 80 (at_column 2 row))
                      (map P l)) ->
  List.filter passes (map P l) = map P (List.filter valid l).
Proof.
  induction l as [|row l IH]; [done|]. cbn [map List.filter].
  intros [H1 F1]%Forall_cons.
  rewrite !at_column_parse_row by lia.
  rewrite within_parse by by rewrite <- at_column_parse_row by lia.
  intros F2 F3.
  assert (E : passes (P row) = valid row).
  { apply passes_parse_row; [done| |].
    - intros HT. rewrite HT in F2. by apply Forall_cons in F2 as [? _].
    - intros HT HH. rewrite HT in F2, F3. apply Forall_cons in F2 as [H2 _].
      rewrite at_column_parse_row in H2 by lia.
      rewrite within_parse, HH in F3 by done. by apply Forall_cons in F3 as [? _]. }
  assert (T : List.filter passes (map P l) = map P (List.filter valid l)).
  { apply IH; [done| |].
    - destruct (in_range 0 60 (cell 1 row)); [|done]. by apply Forall_cons in F2 as [_ ?].
    - destruct (in_range 0 60 (cell 1 row)); [|done]. simpl in F3.
      destruct (within 0 80 _); [|done]. by apply Forall_cons in F3 as [_ ?]. }
  rewrite E, T. by destruct (valid row).
Qed.
End Rows.
Lemma Forall_filter_true {A} (p : A -> bool) (xs : list A) :
  Forall (fun x => p x = true) (List.filter p xs).
Proof.
  induction xs as [|x xs IH]; simpl; [done|].
  destruct (p x) eqn:E; [by constructor | done].
Qed.

Lemma valid_not_blank row : valid row = true -> blank row = false.
Proof. by destruct row. Qed.



Lemma valid_inv row :
  valid row = true ->
  in_range 0 60 (cell 1 row) = true /\
  in_range 0 80 (cell 2 row) = true /\
  in_range 3 150 (cell 3 row) = true.
Proof. unfold valid. by intros [[H1 H2]%andb_true_iff H3]%andb_true_iff. Qed.


Lemma cleaned_header_rows body out :
  cleaned (header :: body) = Ok out ->
  forallb (fun row => Nat.leb (length row) 4) (data_rows body) = true /\
  out = header :: map (fun row => map to_field (parse_row (data_rows body) 4 row))
                      (List.filter valid (data_rows body)).
Proof.
  unfold cleaned. rewrite read_frame_header.
  destruct (forallb _ (data_rows body)) eqn:W; [|done]. cbn [mbind outcome_bind].
  destruct (remove_invalid _) as [df|] eqn:R; [|done]. cbn [mbind outcome_bind].
  apply remove_invalid_inv in R as (-> & F1 & F2 & F3); [|done]. cbn [rows] in *.
  rewrite fill_missing_passes by apply Forall_filter_true.
  cbn [mbind outcome_bind columns rows]. intros [= <-]. split; [done|]. f_equal.
  rewrite filter_passes_rows by done. by rewrite map_map.
Qed.



(** ** The cleaner: range invariant and row filter *)

Lemma in_range_inv lo hi fld :
  in_range lo hi fld = true ->
  exists f, fld = FNum f /\ PrimFloat.leb lo f = true /\ PrimFloat.leb f hi = true.
Proof.
  destruct fld as [|f| |]; try done. simpl.
  intros [H1 H2]%andb_true_iff. eauto.
Qed.

Lemma cleaned_row_in_range body row :
  valid row = true -> row_in_range (map to_field (parse_row body 4 row)).
Proof.
  intros (H1 & H2 & H3)%valid_inv.
  pose proof (in_range_canonical _ _ _ H1) as C1.
  pose proof (in_range_canonical _ _ _ H2) as C2.
  pose proof (in_range_canonical _ _ _ H3) as C3.
  apply in_range_inv in H1 as (a & Ea & Ha).
  apply in_range_inv in H2 as (b & Eb & Hb).
  apply in_range_inv in H3 as (c & Ec & Hc).
  unfold parse_row. cbn [seq map].
  rewrite (to_field_parse _ (cell 1 row)), (to_field_parse _ (cell 2 row)),
    (to_field_parse _ (cell 3 row)) by done.
  rewrite Ea, Eb, Ec. by eexists _, a, b, c.
Qed.

(** C2: whenever [clean_data] writes its output for an input file under the
    four-column header, every data row of the output holds a Temperature in
    [0,60], a Humidity in [0,80] and a Wind Speed in [3,150]. *)
Theorem clean_data_rows_in_range input_file output_file w body w' :
  files w !! input_file = Some (header :: body) ->
  clean_data input_file output_file w = (Ok tt, w') ->
  exists out, files w' !! output_file = Some (header :: out) /\ Forall row_in_range out.
Proof.
  intros Hfile. rewrite clean_data_run, Hfile.
  destruct (cleaned (header :: body)) as [out|] eqn:E; [|done].
  intros [= <-]. apply cleaned_header_rows in E as [_ ->].
  eexists. split; [apply lookup_insert_eq|].
  apply Forall_map. eapply Forall_impl; [apply Forall_filter_true|].
  intros row Hrow. by apply cleaned_row_in_range.
Qed.

Lemma clean_data_rows_in_range_witness :
  exists out,
    files (snd (clean_data "weather_data.csv" "cleaned_data.csv" sample_world))
      !! "cleaned_data.csv" = Some (header :: out) /\
    Forall row_in_range out.
Proof.
  apply (clean_data_rows_in_range "weather_data.csv" "cleaned_data.csv"
           sample_world sample_rows).
  - vm_compute. reflexivity.
  - vm_compute. reflexivity.
Defined.



Lemma below_2_63_not_nan f : below_2_63 f = true -> is_nan f = false.
Proof.
  unfold below_2_63. intros H. apply is_nan_spec. intros E.
  rewrite FloatAxioms.ltb_spec, FloatAxioms.abs_spec, E in H. done.
Qed.

Lemma float_field_canonical fld : float_field fld = true -> canonical fld = true.
Proof.
  destruct fld as [|f| |]; try done. simpl.
  by intros ->%below_2_63_not_nan.
Qed.






(** C1, at a table with a missing Temperature: the row is dropped by the
    filter and nothing is imputed. *)
Theorem clean_data_drops_missing :
  files (snd (clean_data "weather_data.csv" "cleaned_data.csv" sample_world))
    !! "cleaned_data.csv" =
  Some [header; [FText "t0"; FNum 20; FNum 50; FNum 10]].
Proof. vm_compute. reflexivity. Qed.

(** C10: when the input has no data row, or the three filters leave none,
    [clean_data] ends normally, having written the header row alone: the
    mean of an empty column is [nan], not an error. *)
Theorem clean_data_no_rows input_file output_file w file df :
  files w !! input_file = Some file ->
  read_frame file = Ok df ->
  columns df = header ->
  rows df = [] \/ (exists df', remove_invalid df = Ok df' /\ rows df' = []) ->
  clean_data input_file output_file w =
    (Ok tt, World (<[output_file := [header]]> (files w))
                  (stdout w ++ [cleaned_message output_file])) /\
  mean [] = Ok nan.
Proof.
  intros Hfile Hread Hcols Hrows. split; [|done].
  rewrite clean_data_run, Hfile. unfold cleaned. rewrite Hread.
  cbn [mbind outcome_bind].
  assert (E : remove_invalid df = Ok (Frame header [])).
  { destruct Hrows as [Hrows | (df' & E & Hrows)].
    - destruct df as [labels body]. simpl in *. by subst.
    - rewrite E. apply remove_invalid_inv in E as [E _]; [|done].
      rewrite E in Hrows. simpl in Hrows. by rewrite E, Hrows. }
  by rewrite E.
Qed.

Lemma clean_data_no_rows_witness :
  clean_data "weather_data.csv" "cleaned_data.csv"
    (World {["weather_data.csv" := [header; [FText "t1"; FNum 999; FNum 40; FNum 20]]]} []) =
    (Ok tt,
     World (<["cleaned_data.csv" := [header]]>
              {["weather_data.csv" := [header; [FText "t1"; FNum 999; FNum 40; FNum 20]]]})
           [cleaned_message "cleaned_data.csv"]) /\
  mean [] = Ok nan.
Proof.
  eapply (clean_data_no_rows "weather_data.csv" "cleaned_data.csv").
  - reflexivity.
  - reflexivity.
  - reflexivity.
  - right. eexists. split; [vm_compute; reflexivity | reflexivity].
Defined.
(** ** The writer *)

Lemma lookup_nth {A} (l : list A) (i : nat) (d : A) :
  (i < length l)%nat -> l !! i = Some (nth i l d).
Proof. intros H. destruct (nth_lookup_or_length l i d); [done | lia]. Qed.

Lemma item_list data key l i :
  py_getitem data key = Ok (PList l) -> (i < length l)%nat ->
  item data key i = Ok (nth i l PNone).
Proof.
  intros E H. unfold item. rewrite E. cbn [mbind outcome_bind py_index].
  by rewrite (lookup_nth l i PNone H).
Qed.

Lemma truthy_getitem data key v : py_getitem data key = Ok v -> truthy data = true.
Proof. destruct data as [| | | |[|item items]]; done. Qed.

Section Writer.
Variables (data : pyval) (filename : string).
Variables time temperature humidity wind : list pyval.
Hypothesis Htime : py_getitem data "time" = Ok (PList time).
Hypothesis Htemperature : py_getitem data "temperature_2m" = Ok (PList temperature).
Hypothesis Hhumidity : py_getitem data "relative_humidity_2m" = Ok (PList humidity).
Hypothesis Hwind : py_getitem data "wind_speed_10m" = Ok (PList wind).
Hypothesis Ltemperature : length temperature = length time.
Hypothesis Lhumidity : length humidity = length time.
Hypothesis Lwind : length wind = length time.

Lemma write_rows m : forall k w acc,
  (k + m <= length time)%nat ->
  files w !! filename = Some acc ->
  for_each (seq k m) (write_row data filename) w =
    (Ok tt, World (<[filename := acc ++ map (row_at time temperature humidity wind) (seq k m)]>
                     (files w))
                  (stdout w)).
Proof.
  induction m as [|m IH]; intros k w acc Hk Hacc.
  - destruct w as [fs out]. simpl in *. rewrite app_nil_r.
    by rewrite insert_id.
  - cbn [seq for_each map]. unfold mbind at 1, M_bind at 1.
    assert (E : write_row data filename k w =
      (Ok tt, World (<[filename := acc ++ [row_at time temperature humidity wind k]]> (files w))
                    (stdout w))).
    { unfold write_row, mbind, M_bind, lift, writerow.
      rewrite (item_list _ _ _ _ Htime), (item_list _ _ _ _ Htemperature),
        (item_list _ _ _ _ Hhumidity), (item_list _ _ _ _ Hwind) by lia.
      by rewrite Hacc. }
    rewrite E. erewrite IH; [|lia|cbn [files]; apply lookup_insert_eq].
    cbn [files stdout]. by rewrite insert_insert_eq, <- app_assoc.
Qed.

Lemma save_to_csv_run w :
  save_to_csv data filename w =
    (Ok tt, World (<[filename := header :: map (row_at time temperature humidity wind)
                                            (seq 0 (length time))]> (files w))
                  (stdout w ++ [saved_message filename])).
Proof.
  unfold save_to_csv. rewrite (truthy_getitem _ _ _ Htime). cbn [negb].
  unfold mbind at 1 2 3 4 5, M_bind at 1 2 3 4 5, open_w at 1, writerow at 1, lift at 1 2.
  cbn [files stdout]. rewrite Htime. cbn [py_len].
  rewrite (write_rows (length time) 0 _ [header]); [|lia|].
  - cbn [files stdout print]. unfold print. cbn [files stdout].
    by rewrite !insert_insert_eq.
  - cbn [files]. rewrite lookup_insert_eq. cbn [default]. by rewrite lookup_insert_eq.
Qed.
End Writer.
Lemma table_rows time : forall temperature humidity wind,
  length temperature = length time -> length humidity = length time ->
  length wind = length time ->
  table time temperature humidity wind =
    map (row_at time temperature humidity wind) (seq 0 (length time)).
Proof.
  induction time as [|t time IH]; intros [|a temperature] [|b humidity] [|c wind];
    try done.
  intros [= H1] [= H2] [= H3]. cbn [table length seq map]. f_equal.
  by rewrite (IH _ _ _ H1 H2 H3), <- seq_shift, map_map.
Qed.

Lemma table_length time : forall temperature humidity wind,
  length temperature = length time -> length humidity = length time ->
  length wind = length time ->
  length (table time temperature humidity wind) = length time.
Proof.
  induction time as [|t time IH]; intros [|a temperature] [|b humidity] [|c wind];
    try done.
  intros [= H1] [= H2] [= H3]. cbn [table length]. by rewrite IH.
Qed.

Lemma table_lookup time : forall temperature humidity wind i t a b c,
  time !! i = Some t -> temperature !! i = Some a ->
  humidity !! i = Some b -> wind !! i = Some c ->
  table time temperature humidity wind !! i =
    Some [csv_field t; csv_field a; csv_field b; csv_field c].
Proof.
  induction time as [|t' time IH]; intros [|a' temperature] [|b' humidity] [|c' wind];
    try done.
  intros [|i] t a b c; cbn [table].
  - by intros [= ->] [= ->] [= ->] [= ->].
  - intros. by apply IH.
Qed.

(** C5: for a batch whose four sequences have the same length, [save_to_csv]
    writes the header row and then one row per position, in order: the file
    holds [len(time)] data rows and row [i] holds the four values at
    position [i]. *)
Theorem save_to_csv_writes_rows data filename w time temperature humidity wind :
  py_getitem data "time" = Ok (PList time) ->
  py_getitem data "temperature_2m" = Ok (PList temperature) ->
  py_getitem data "relative_humidity_2m" = Ok (PList humidity) ->
  py_getitem data "wind_speed_10m" = Ok (PList wind) ->
  length temperature = length time ->
  length humidity = length time ->
  length wind = length time ->
  save_to_csv data filename w =
    (Ok tt, World (<[filename := header :: table time temperature humidity wind]> (files w))
                  (stdout w ++ [saved_message filename])) /\
  length (table time temperature humidity wind) = length time /\
  (forall i t a b c,
     time !! i = Some t -> temperature !! i = Some a ->
     humidity !! i = Some b -> wind !! i = Some c ->
     table time temperature humidity wind !! i =
       Some [csv_field t; csv_field a; csv_field b; csv_field c]).
Proof.
  intros H1 H2 H3 H4 L2 L3 L4. split; [|split].
  - rewrite (save_to_csv_run data filename time temperature humidity wind) by done.
    by rewrite table_rows.
  - by apply table_length.
  - apply table_lookup.
Qed.
Lemma save_to_csv_writes_rows_witness :
  save_to_csv sample_batch "weather_data.csv" (World ∅ []) =
    (Ok tt, World (<["weather_data.csv" := header :: sample_rows]> ∅)
                  [saved_message "weather_data.csv"]) /\
  length sample_rows = 3%nat.
Proof.
  destruct (save_to_csv_writes_rows sample_batch "weather_data.csv" (World ∅ [])
              [PStr "t0"; PStr "t1"; PStr "t2"] [PNum 20; PNum 999; PNone]
              [PNum 50; PNum 40; PNum 30] [PNum 10; PNum 20; PNum 30])
    as (H1 & H2 & _); try reflexivity.
  split; [exact H1 | exact H2].
Defined.

(** ** Cleaning what the writer wrote *)

Lemma filter_all {A} (p : A -> bool) (xs : list A) :
  Forall (fun x => p x = true) xs -> List.filter p xs = xs.
Proof. induction 1 as [|x xs Hx _ IH]; simpl; [done|]. by rewrite Hx, IH. Qed.



Lemma in_range_numeric lo hi fld : in_range lo hi fld = true -> numeric fld = true.
Proof. by destruct fld. Qed.




(** ** The fetcher *)

Lemma fetch_not_200 response w :
  status_code response <> 200%Z ->
  fetch_weather_data response w =
    (Ok PNone, World (files w) (stdout w ++ [fetch_error (status_code response)])).
Proof.
  intros H. unfold fetch_weather_data.
  by rewrite (proj2 (Z.eqb_neq _ _) H).
Qed.

Lemma fetch_200_hourly response data hourly w :
  status_code response = 200%Z ->
  json_body response = Some data ->
  py_getitem data "hourly" = Ok hourly ->
  py_contains "temperature_2m" hourly = Ok true ->
  fetch_weather_data response w = (Ok hourly, w).
Proof.
  intros Hs Hb Hh Ht. unfold fetch_weather_data, response_json.
  rewrite Hs, Hb. cbn [Z.eqb Pos.eqb]. unfold mbind, M_bind, lift.
  destruct data as [| | | |items]; try done.
  cbn [py_contains py_getitem] in *.
  destruct (dict_get items "hourly") as [h|]; [|done].
  injection Hh as ->. rewrite bool_decide_eq_true_2 by eauto.
  by rewrite Ht.
Qed.

Lemma fetch_200_missing response items w :
  status_code response = 200%Z ->
  json_body response = Some (PDict items) ->
  dict_get items "hourly" = None \/
  (exists hourly, dict_get items "hourly" = Some hourly /\
                  py_contains "temperature_2m" hourly = Ok false) ->
  fetch_weather_data response w =
    (Ok PNone, World (files w) (stdout w ++ [hourly_missing])).
Proof.
  intros Hs Hb H. unfold fetch_weather_data, response_json.
  rewrite Hs, Hb. cbn [Z.eqb Pos.eqb]. unfold mbind, M_bind, lift.
  cbn [py_contains py_getitem].
  destruct H as [H | (hourly & H & Ht)]; rewrite H.
  - rewrite bool_decide_eq_false_2; [done|]. by intros [? ?].
  - rewrite bool_decide_eq_true_2 by eauto. by rewrite Ht.
Qed.

(** C9, at a response of status 200 whose body is the JSON object with a
    null [hourly]: the membership test on [None] raises a TypeError, no
    warning is printed and nothing is returned. *)
Theorem fetch_weather_data_null_hourly w :
  fetch_weather_data (Response 200 (Some (PDict [("hourly", PNone)]))) w =
    (Raise TypeError, w).
Proof. reflexivity. Qed.

(** ** The pipeline *)

Lemma save_to_csv_absent filename w :
  save_to_csv PNone filename w = (Ok tt, World (files w) (stdout w ++ [no_data_to_save])).
Proof. reflexivity. Qed.

(** C6, as the code has it: on a status other than 200 the fetcher reports
    the status code and returns [None]; the pipeline then calls neither the
    writer nor the later stages, so it prints nothing more and leaves every
    file as it was. The writer called with [None] prints its report and
    touches no file. *)
Theorem main_not_200 response w :
  status_code response <> 200%Z ->
  fetch_weather_data response w =
    (Ok PNone, World (files w) (stdout w ++ [fetch_error (status_code response)])) /\
  main response w =
    (Ok tt, World (files w) (stdout w ++ [fetch_error (status_code response)])) /\
  (forall filename w0,
     save_to_csv PNone filename w0 =
       (Ok tt, World (files w0) (stdout w0 ++ [no_data_to_save]))).
Proof.
  intros H. split; [by apply fetch_not_200|]. split; [|apply save_to_csv_absent].
  unfold main, mbind, M_bind. by rewrite fetch_not_200.
Qed.

Lemma main_not_200_witness :
  main (Response 500 None) (World ∅ []) = (Ok tt, World ∅ [fetch_error 500]).
Proof.
  destruct (main_not_200 (Response 500 None) (World ∅ [])) as (_ & H & _).
  - simpl. lia.
  - exact H.
Defined.

(** C6, as the specification states it, fails: on status 500 the pipeline prints the
    fetcher's error and never the writer's report. *)
Lemma main_500_writer_silent :
  stdout (snd (main (Response 500 None) (World ∅ []))) = [fetch_error 500] /\
  existsb (String.eqb no_data_to_save)
          (stdout (snd (main (Response 500 None) (World ∅ [])))) = false.
Proof. split; reflexivity. Qed.
(** ** The format [.2f] *)









(** *** An int below 2^53 is converted to a float exactly *)










(** ** The summarizer *)

Lemma print_lines (lines : list string) : forall w,
  for_each lines print w = (Ok tt, World (files w) (stdout w ++ lines)).
Proof.
  induction lines as [|line lines IH]; intros [fs out].
  - simpl. by rewrite app_nil_r.
  - cbn [for_each]. unfold mbind, M_bind. cbn [print]. unfold print at 1.
    rewrite IH. cbn [files stdout]. by rewrite <- app_assoc.
Qed.

Lemma for_each_print {A} (f : A -> string) (xs : list A) w :
  for_each xs (fun x => print (f x)) w = for_each (map f xs) print w.
Proof.
  revert w. induction xs as [|x xs IH]; intros w; [done|].
  cbn [for_each map]. unfold mbind, M_bind. destruct (print (f x) w) as [[[]|e] w']; [|done].
  apply IH.
Qed.

Lemma summarize_data_run filename w :
  summarize_data filename w =
  match files w !! filename with
  | None => (Raise FileNotFoundError, w)
  | Some file =>
      match read_frame file with
      | Raise e => (Raise e, w)
      | Ok df =>
          if empty df then (Ok tt, World (files w) (stdout w ++ [no_data_to_summarize]))
          else
            match summary df with
            | Raise e => (Raise e, w)
            | Ok entries =>
                (Ok tt, World (files w)
                              (stdout w ++ summary_title :: map summary_line entries))
            end
      end
  end.
Proof.
  unfold summarize_data, read_csv. unfold mbind at 1, M_bind at 1.
  destruct (files w !! filename) as [file|]; [|done].
  destruct (read_frame file) as [df|]; [|done].
  destruct (empty df); [done|].
  unfold mbind at 1, M_bind at 1, lift.
  destruct (summary df) as [entries|]; [|done].
  unfold mbind, M_bind. unfold print at 1.
  rewrite for_each_print, print_lines. cbn [files stdout].
  by rewrite <- app_assoc.
Qed.

Lemma read_frame_shape file df :
  read_frame file = Ok df -> columns df <> [] /\ length (rows df) = records file.
Proof.
  unfold read_frame, records.
  destruct (List.filter _ file) as [|labels body] eqn:E; [done|].
  destruct (forallb _ body); [|done]. intros [= <-]. cbn [columns rows tl].
  split; [|by rewrite length_map].
  assert (H : In labels (List.filter (fun row => negb (blank row)) file))
    by (rewrite E; by left).
  apply filter_In in H as [_ H]. by destruct labels.
Qed.

Lemma summary_inv df entries :
  summary df = Ok entries ->
  exists a b c d e,
    entries = [("Total Records", Int (Z.of_nat (length (rows df))));
               ("Avg Temperature", Float a); ("Max Temperature", Float b);
               ("Min Temperature", Float c); ("Avg Humidity", Float d);
               ("Avg Wind Speed", Float e)].
Proof.
  unfold summary.
  destruct (series ← getcol df "Temperature"; mean series) as [a|]; [|done].
  destruct (series ← getcol df "Temperature"; max series) as [b|]; [|done].
  destruct (series ← getcol df "Temperature"; min series) as [c|]; [|done].
  destruct (series ← getcol df "Humidity"; mean series) as [d|]; [|done].
  destruct (series ← getcol df "Wind Speed"; mean series) as [e|]; [|done].
  cbn [mbind outcome_bind].
  intros [= <-]. by exists a, b, c, d, e.
Qed.






(** C7, as the code has it: for a cleaned file of exactly three rows whose
    Temperatures are 10.0, 20.0 and 30.0, the summarizer prints
    [Total Records: 3.00], [Avg Temperature: 20.00],
    [Max Temperature: 30.00] and [Min Temperature: 10.00], in this order
    after the title and before the two other means. *)
Theorem summarize_three_temperatures filename w (t1 t2 t3 : field)
    (h1 h2 h3 c1 c2 c3 : float) :
  files w !! filename =
    Some [header; [t1; FNum 10; FNum h1; FNum c1];
                  [t2; FNum 20; FNum h2; FNum c2];
                  [t3; FNum 30; FNum h3; FNum c3]] ->
  exists avg_humidity avg_wind,
    summarize_data filename w =
      (Ok tt,
       World (files w)
             (stdout w ++
              [summary_title; "Total Records: 3.00"; "Avg Temperature: 20.00";
               "Max Temperature: 30.00"; "Min Temperature: 10.00";
               "Avg Humidity: " +:+ avg_humidity; "Avg Wind Speed: " +:+ avg_wind])).
Proof.
  intros Hfile. rewrite summarize_data_run, Hfile, read_frame_header.
  set (body := [[t1; FNum 10; FNum h1; FNum c1]; [t2; FNum 20; FNum h2; FNum c2];
                [t3; FNum 30; FNum h3; FNum c3]]).
  change (data_rows body) with body.
  change (forallb _ body) with true. cbv iota.
  change (empty _) with false. cbv iota.
  unfold summary.
  rewrite (getcol_at _ "Temperature" 1), (getcol_at _ "Humidity" 2),
    (getcol_at _ "Wind Speed" 3) by done.
  cbn [rows mbind outcome_bind].
  change (map (at_column 1) (map (parse_row body 4) body))
    with [VFloat 10; VFloat 20; VFloat 30].
  change (map (at_column 2) (map (parse_row body 4) body))
    with [VFloat h1; VFloat h2; VFloat h3].
  change (map (at_column 3) (map (parse_row body 4) body))
    with [VFloat c1; VFloat c2; VFloat c3].
  change (mean [VFloat 10; VFloat 20; VFloat 30]) with (Ok 20%float).
  change (max [VFloat 10; VFloat 20; VFloat 30]) with (Ok 30%float).
  change (min [VFloat 10; VFloat 20; VFloat 30]) with (Ok 10%float).
  destruct (mean_floats [VFloat h1; VFloat h2; VFloat h3]) as [mh ->];
    [by repeat constructor|].
  destruct (mean_floats [VFloat c1; VFloat c2; VFloat c3]) as [mc ->];
    [by repeat constructor|].
  cbn [mbind outcome_bind map length].
  exists (format_2f (Float mh)), (format_2f (Float mc)).
  do 3 f_equal.
Qed.

Lemma summarize_three_temperatures_witness :
  exists avg_humidity avg_wind,
    summarize_data "cleaned_data.csv" three_rows_world =
      (Ok tt,
       World (files three_rows_world)
             (stdout three_rows_world ++
              [summary_title; "Total Records: 3.00"; "Avg Temperature: 20.00";
               "Max Temperature: 30.00"; "Min Temperature: 10.00";
               "Avg Humidity: " +:+ avg_humidity; "Avg Wind Speed: " +:+ avg_wind])).
Proof.
  apply (summarize_three_temperatures "cleaned_data.csv" three_rows_world
           (FText "t0") (FText "t1") (FText "t2") 50 40 30 10 20 30).
  reflexivity.
Defined.

(** C7, as the specification states it, fails on the record count: the line printed is
    [Total Records: 3.00], and no line is [Total Records: 3]. *)
Lemma summarize_total_records_has_decimals :
  nth 1 (stdout (snd (summarize_data "cleaned_data.csv" three_rows_world))) "" =
    "Total Records: 3.00" /\
  existsb (String.eqb "Total Records: 3")
          (stdout (snd (summarize_data "cleaned_data.csv" three_rows_world))) = false.
Proof. split; vm_compute; reflexivity. Qed.
(** * More on the four stages *)

(** ** The fetcher: what it returns and what it touches *)

Lemma index_in_empty c key : index 0 (String c key) "" = None.
Proof. done. Qed.

Lemma contains_truthy key v :
  key <> "" -> py_contains key v = Ok true -> truthy v = true.
Proof.
  intros Hkey. destruct v as [|f|t|l|items]; simpl; try done.
  - intros [= H]. apply bool_decide_eq_true in H as [n H].
    destruct t; [|done]. destruct key; [done|]. by rewrite index_in_empty in H.
  - intros [= H]. by destruct l.
  - intros [= H]. apply bool_decide_eq_true in H as [x H]. by destruct items.
Qed.

Lemma fetch_weather_data_cases response w :
  (status_code response <> 200%Z /\
   fetch_weather_data response w =
     (Ok PNone, World (files w) (stdout w ++ [fetch_error (status_code response)]))) \/
  (status_code response = 200%Z /\
   ((exists e, fetch_weather_data response w = (Raise e, w)) \/
    fetch_weather_data response w =
      (Ok PNone, World (files w) (stdout w ++ [hourly_missing])) \/
    (exists data hourly,
       json_body response = Some data /\
       py_getitem data "hourly" = Ok hourly /\
       py_contains "temperature_2m" hourly = Ok true /\
       fetch_weather_data response w = (Ok hourly, w)))).
Proof.
  destruct (Z.eq_dec (status_code response) 200%Z) as [Hs|Hs].
  2: { left. split; [done|]. by apply fetch_not_200. }
  right. split; [done|]. unfold fetch_weather_data, response_json. rewrite Hs.
  cbn [Z.eqb Pos.eqb]. unfold mbind, M_bind, lift.
  destruct (json_body response) as [data|]; [|left; eauto].
  destruct (py_contains "hourly" data) as [[|]|e] eqn:E1; [| |left; eauto].
  - destruct (py_getitem data "hourly") as [hourly|e] eqn:E2; [|left; eauto].
    destruct (py_contains "temperature_2m" hourly) as [[|]|e] eqn:E3; [| |left; eauto].
    + right. right. exists data, hourly. by rewrite E2.
    + right. by left.
  - right. by left.
Qed.
(** X1: the fetcher never touches a file; it prints nothing when it raises or
    returns a batch, and exactly one line, the warning or the error with the
    status code, when it returns [None]. *)
Theorem fetch_weather_data_effects response w :
  files (snd (fetch_weather_data response w)) = files w /\
  (fst (fetch_weather_data response w) <> Ok PNone ->
   snd (fetch_weather_data response w) = w) /\
  (fst (fetch_weather_data response w) = Ok PNone ->
   stdout (snd (fetch_weather_data response w)) = stdout w ++ [hourly_missing] \/
   stdout (snd (fetch_weather_data response w)) =
     stdout w ++ [fetch_error (status_code response)]).
Proof.
  destruct (fetch_weather_data_cases response w)
    as [[_ E] | [_ [[e E] | [E | (data & hourly & _ & _ & Hc & E)]]]];
    rewrite E; cbn [fst snd files stdout]; repeat split; try done; auto.
  intros [= ->]. done.
Qed.

(** X2: a value the fetcher returns that is not [None] is the [hourly]
    member of the body of a response of status 200, has [temperature_2m] in
    it and is truthy, so that the pipeline goes on; the world is as it was. *)
Theorem fetch_weather_data_returns_hourly response w v w' :
  fetch_weather_data response w = (Ok v, w') ->
  v <> PNone ->
  status_code response = 200%Z /\
  (exists data, json_body response = Some data /\ py_getitem data "hourly" = Ok v) /\
  py_contains "temperature_2m" v = Ok true /\
  truthy v = true /\
  w' = w.
Proof.
  intros E Hv.
  destruct (fetch_weather_data_cases response w)
    as [[_ E'] | [Hs [[e E'] | [E' | (data & hourly & Hb & Hh & Hc & E')]]]];
    rewrite E' in E; try done; try (by injection E as <- _).
  injection E as <- <-. repeat split; eauto.
  by apply (contains_truthy "temperature_2m").
Qed.

Lemma fetch_weather_data_returns_hourly_witness :
  status_code sample_response = 200%Z /\
  (exists data, json_body sample_response = Some data /\
                py_getitem data "hourly" = Ok sample_batch) /\
  py_contains "temperature_2m" sample_batch = Ok true /\
  truthy sample_batch = true /\
  World ∅ [] = World ∅ [].
Proof.
  apply (fetch_weather_data_returns_hourly sample_response (World ∅ [])).
  - reflexivity.
  - discriminate.
Defined.

(** X3: on status 200, when the body has an [hourly] member with
    [temperature_2m] in it, the fetcher returns that member, whatever else
    the body and the member hold, and prints nothing. *)
Theorem fetch_weather_data_success response data hourly w :
  status_code response = 200%Z ->
  json_body response = Some data ->
  py_getitem data "hourly" = Ok hourly ->
  py_contains "temperature_2m" hourly = Ok true ->
  fetch_weather_data response w = (Ok hourly, w).
Proof. apply fetch_200_hourly. Qed.

Lemma fetch_weather_data_success_witness :
  fetch_weather_data sample_response (World ∅ []) = (Ok sample_batch, World ∅ []).
Proof.
  apply (fetch_weather_data_success sample_response
           (PDict [("latitude", PNum 52.5); ("hourly", sample_batch)]));
    reflexivity.
Defined.

(** X4: on status 200, when the body is an object with no [hourly] member, or
    with one that can be searched and has no [temperature_2m], the fetcher
    prints the warning and returns [None]. *)
Theorem fetch_weather_data_warns response items w :
  status_code response = 200%Z ->
  json_body response = Some (PDict items) ->
  dict_get items "hourly" = None \/
  (exists hourly, dict_get items "hourly" = Some hourly /\
                  py_contains "temperature_2m" hourly = Ok false) ->
  fetch_weather_data response w =
    (Ok PNone, World (files w) (stdout w ++ [hourly_missing])).
Proof. apply fetch_200_missing. Qed.

Lemma fetch_weather_data_warns_witness :
  fetch_weather_data (Response 200 (Some (PDict [("hourly", PDict [("time", PList [])])])))
                     (World ∅ []) =
    (Ok PNone, World ∅ [hourly_missing]).
Proof.
  apply (fetch_weather_data_warns
           (Response 200 (Some (PDict [("hourly", PDict [("time", PList [])])])))
           [("hourly", PDict [("time", PList [])])]).
  - reflexivity.
  - reflexivity.
  - right. eexists. split; reflexivity.
Defined.
(** ** The writer: sequences of any length *)

Lemma item_missing data key l i :
  py_getitem data key = Ok (PList l) -> (length l <= i)%nat ->
  item data key i = Raise IndexError.
Proof.
  intros E H. unfold item. rewrite E. cbn [mbind outcome_bind py_index].
  by rewrite (lookup_ge_None_2 l i H).
Qed.

Lemma table_rows_min time : forall temperature humidity wind,
  table time temperature humidity wind =
    map (row_at time temperature humidity wind)
        (seq 0 (Nat.min (length time)
                  (Nat.min (length temperature)
                     (Nat.min (length humidity) (length wind))))).
Proof.
  induction time as [|t time IH]; intros [|a temperature] [|b humidity] [|c wind];
    try done.
  cbn [table length Nat.min seq map]. f_equal.
  by rewrite IH, <- seq_shift, map_map.
Qed.

Section AnyLength.
Variables (data : pyval) (filename : string).
Variables time temperature humidity wind : list pyval.
Hypothesis Htime : py_getitem data "time" = Ok (PList time).
Hypothesis Htemperature : py_getitem data "temperature_2m" = Ok (PList temperature).
Hypothesis Hhumidity : py_getitem data "relative_humidity_2m" = Ok (PList humidity).
Hypothesis Hwind : py_getitem data "wind_speed_10m" = Ok (PList wind).

Local Abbreviation shortest :=
  (Nat.min (length temperature) (Nat.min (length humidity) (length wind))).

Lemma write_row_present i w acc :
  (i < length time)%nat -> (i < shortest)%nat ->
  files w !! filename = Some acc ->
  write_row data filename i w =
    (Ok tt, World (<[filename := acc ++ [row_at time temperature humidity wind i]]> (files w))
                  (stdout w)).
Proof.
  intros H1 H2 Hacc. unfold write_row, mbind, M_bind, lift, writerow.
  rewrite (item_list _ _ _ _ Htime), (item_list _ _ _ _ Htemperature),
    (item_list _ _ _ _ Hhumidity), (item_list _ _ _ _ Hwind) by lia.
  by rewrite Hacc.
Qed.

Lemma write_row_absent i w :
  (i < length time)%nat -> (shortest <= i)%nat ->
  write_row data filename i w = (Raise IndexError, w).
Proof.
  intros H1 H2. unfold write_row, mbind, M_bind, lift.
  rewrite (item_list _ _ _ _ Htime) by lia.
  destruct (Nat.le_gt_cases (length temperature) i) as [Ha|Ha].
  { by rewrite (item_missing _ _ _ _ Htemperature Ha). }
  rewrite (item_list _ _ _ _ Htemperature) by lia.
  destruct (Nat.le_gt_cases (length humidity) i) as [Hb|Hb].
  { by rewrite (item_missing _ _ _ _ Hhumidity Hb). }
  rewrite (item_list _ _ _ _ Hhumidity) by lia.
  rewrite (item_missing _ _ _ _ Hwind) by lia. done.
Qed.

Lemma write_rows_present m : forall k w acc,
  (k + m <= length time)%nat -> (k + m <= shortest)%nat ->
  files w !! filename = Some acc ->
  for_each (seq k m) (write_row data filename) w =
    (Ok tt, World (<[filename := acc ++ map (row_at time temperature humidity wind) (seq k m)]>
                     (files w))
                  (stdout w)).
Proof.
  induction m as [|m IH]; intros k w acc Hk Hs Hacc.
  - destruct w as [fs out]. simpl in *. by rewrite app_nil_r, insert_id.
  - cbn [seq for_each map]. unfold mbind at 1, M_bind at 1.
    rewrite (write_row_present k w acc) by (done || lia).
    erewrite IH; [|lia|lia|cbn [files]; apply lookup_insert_eq].
    cbn [files stdout]. by rewrite insert_insert_eq, <- app_assoc.
Qed.

Lemma write_rows_absent m : forall k w acc,
  (k <= shortest)%nat -> (shortest < k + m)%nat -> (k + m <= length time)%nat ->
  files w !! filename = Some acc ->
  for_each (seq k m) (write_row data filename) w =
    (Raise IndexError,
     World (<[filename := acc ++ map (row_at time temperature humidity wind)
                                     (seq k (shortest - k))]> (files w))
           (stdout w)).
Proof.
  induction m as [|m IH]; intros k w acc Hk Hs Ht Hacc; [lia|].
  cbn [seq for_each]. unfold mbind at 1, M_bind at 1.
  destruct (Nat.eq_dec k shortest) as [E|E].
  - rewrite write_row_absent by lia. rewrite E, Nat.sub_diag. cbn [seq map].
    destruct w as [fs out]. simpl in *. by rewrite app_nil_r, insert_id.
  - rewrite (write_row_present k w acc) by (done || lia).
    erewrite IH; [|lia|lia|lia|cbn [files]; apply lookup_insert_eq].
    cbn [files stdout]. rewrite insert_insert_eq, <- app_assoc.
    replace (shortest - k)%nat with (S (shortest - S k)) by lia. done.
Qed.

Lemma save_to_csv_start w :
  save_to_csv data filename w =
  match for_each (seq 0 (length time)) (write_row data filename)
                 (World (<[filename := [header]]> (files w)) (stdout w)) with
  | (Ok _, w') => (Ok tt, World (files w') (stdout w' ++ [saved_message filename]))
  | (Raise e, w') => (Raise e, w')
  end.
Proof.
  unfold save_to_csv. rewrite (truthy_getitem _ _ _ Htime). cbn [negb].
  unfold mbind at 1 2 3 4 5, M_bind at 1 2 3 4 5, open_w at 1, writerow at 1, lift at 1 2.
  cbn [files stdout]. rewrite Htime. cbn [py_len].
  rewrite lookup_insert_eq. cbn [default app]. rewrite insert_insert_eq.
  by destruct (for_each _ _ _) as [[[]|e] w'].
Qed.
End AnyLength.
(** X5: when the batch is truthy and [data["time"]] or its length cannot be
    had (a missing key, a batch that is no dict, a value without a length),
    the writer raises after it has emptied the file and written the header:
    the file is left with the header alone and no message is printed. *)
Theorem save_to_csv_without_time data filename w e :
  truthy data = true ->
  py_getitem data "time" = Raise e \/
  (exists time, py_getitem data "time" = Ok time /\ py_len time = Raise e) ->
  save_to_csv data filename w =
    (Raise e, World (<[filename := [header]]> (files w)) (stdout w)).
Proof.
  intros Ht H. unfold save_to_csv. rewrite Ht. cbn [negb].
  unfold mbind, M_bind, open_w, writerow, lift. cbn [files stdout].
  rewrite lookup_insert_eq. cbn [default app]. rewrite insert_insert_eq.
  destruct H as [-> | (time & -> & ->)]; done.
Qed.

Lemma save_to_csv_without_time_witness :
  save_to_csv (PDict [("temperature_2m", PList [PNum 20])]) "weather_data.csv"
              (World {["weather_data.csv" := header :: sample_rows]} []) =
    (Raise KeyError,
     World (<["weather_data.csv" := [header]]>
              {["weather_data.csv" := header :: sample_rows]}) []).
Proof.
  apply save_to_csv_without_time.
  - reflexivity.
  - left. reflexivity.
Defined.

(** X6: when one of the three numeric sequences is shorter than [time], the
    writer raises an IndexError at the first position that is missing; the
    file then holds the header and the rows before that position, and the
    success message is not printed. *)
Theorem save_to_csv_stops_at_short_sequence data filename w time temperature humidity wind :
  py_getitem data "time" = Ok (PList time) ->
  py_getitem data "temperature_2m" = Ok (PList temperature) ->
  py_getitem data "relative_humidity_2m" = Ok (PList humidity) ->
  py_getitem data "wind_speed_10m" = Ok (PList wind) ->
  (Nat.min (length temperature) (Nat.min (length humidity) (length wind)) < length time)%nat ->
  save_to_csv data filename w =
    (Raise IndexError,
     World (<[filename := header :: table time temperature humidity wind]> (files w))
           (stdout w)) /\
  length (table time temperature humidity wind) =
    Nat.min (length temperature) (Nat.min (length humidity) (length wind)).
Proof.
  intros H1 H2 H3 H4 Hshort.
  rewrite table_rows_min, (Nat.min_r (length time)) by lia. split.
  - rewrite (save_to_csv_start data filename time H1).
    rewrite (write_rows_absent data filename time temperature humidity wind H1 H2 H3 H4
               (length time) 0 _ [header]);
      [|lia|lia|lia|cbn [files]; apply lookup_insert_eq].
    cbn [files stdout]. by rewrite insert_insert_eq, Nat.sub_0_r.
  - by rewrite length_map, length_seq.
Qed.

Lemma save_to_csv_stops_at_short_sequence_witness :
  save_to_csv short_batch "weather_data.csv" (World ∅ []) =
    (Raise IndexError,
     World (<["weather_data.csv" :=
                header :: table [PStr "t0"; PStr "t1"] [PNum 20]
                                [PNum 50; PNum 40] [PNum 10; PNum 20]]> ∅) []) /\
  length (table [PStr "t0"; PStr "t1"] [PNum 20] [PNum 50; PNum 40] [PNum 10; PNum 20]) =
    Nat.min 1 (Nat.min 2 2).
Proof.
  apply (save_to_csv_stops_at_short_sequence short_batch "weather_data.csv" (World ∅ []));
    try reflexivity.
  simpl. lia.
Defined.

(** X7: values beyond the length of [time] are ignored: when the three
    numeric sequences are at least as long as [time], the writer succeeds and
    writes one row per time stamp. *)
Theorem save_to_csv_ignores_surplus data filename w time temperature humidity wind :
  py_getitem data "time" = Ok (PList time) ->
  py_getitem data "temperature_2m" = Ok (PList temperature) ->
  py_getitem data "relative_humidity_2m" = Ok (PList humidity) ->
  py_getitem data "wind_speed_10m" = Ok (PList wind) ->
  (length time <= Nat.min (length temperature) (Nat.min (length humidity) (length wind)))%nat ->
  save_to_csv data filename w =
    (Ok tt,
     World (<[filename := header :: table time temperature humidity wind]> (files w))
           (stdout w ++ [saved_message filename])) /\
  length (table time temperature humidity wind) = length time.
Proof.
  intros H1 H2 H3 H4 Hlong.
  rewrite table_rows_min, (Nat.min_l (length time)) by lia. split.
  - rewrite (save_to_csv_start data filename time H1).
    rewrite (write_rows_present data filename time temperature humidity wind H1 H2 H3 H4
               (length time) 0 _ [header]);
      [|lia|lia|cbn [files]; apply lookup_insert_eq].
    cbn [files stdout]. by rewrite insert_insert_eq.
  - by rewrite length_map, length_seq.
Qed.

Lemma save_to_csv_ignores_surplus_witness :
  save_to_csv long_batch "weather_data.csv" (World ∅ []) =
    (Ok tt,
     World (<["weather_data.csv" :=
                header :: table [PStr "t0"] [PNum 20; PNum 21] [PNum 50; PNum 40] [PNum 10]]> ∅)
           [saved_message "weather_data.csv"]) /\
  length (table [PStr "t0"] [PNum 20; PNum 21] [PNum 50; PNum 40] [PNum 10]) = 1%nat.
Proof.
  apply (save_to_csv_ignores_surplus long_batch "weather_data.csv" (World ∅ []));
    reflexivity.
Defined.
(** ** The writer: the files it leaves alone *)

Lemma write_row_frame data filename i w :
  stdout (snd (write_row data filename i w)) = stdout w /\
  forall other, other <> filename ->
    files (snd (write_row data filename i w)) !! other = files w !! other.
Proof.
  unfold write_row, mbind, M_bind, lift, writerow.
  destruct (item data "time" i); [|done].
  destruct (item data "temperature_2m" i); [|done].
  destruct (item data "relative_humidity_2m" i); [|done].
  destruct (item data "wind_speed_10m" i); [|done].
  cbn [snd files stdout]. split; [done|]. intros other H.
  by rewrite lookup_insert_ne.
Qed.

Lemma write_rows_frame data filename (indices : list nat) : forall w,
  stdout (snd (for_each indices (write_row data filename) w)) = stdout w /\
  forall other, other <> filename ->
    files (snd (for_each indices (write_row data filename) w)) !! other = files w !! other.
Proof.
  induction indices as [|i indices IH]; intros w; [done|].
  cbn [for_each]. unfold mbind, M_bind.
  destruct (write_row_frame data filename i w) as [H1 H2].
  destruct (write_row data filename i w) as [[[]|e] w1]; cbn [snd] in *; [|done].
  destruct (IH w1) as [H3 H4]. split; [congruence|].
  intros other H. by rewrite H4, H2.
Qed.

(** X8: whatever the batch and however the call ends, the writer changes no
    file but the one it is given; with no data at all ([None], an empty dict,
    list or string, zero) it changes none and only prints its report. *)
Theorem save_to_csv_other_files data filename w :
  (forall other, other <> filename ->
     files (snd (save_to_csv data filename w)) !! other = files w !! other) /\
  (truthy data = false ->
   save_to_csv data filename w =
     (Ok tt, World (files w) (stdout w ++ [no_data_to_save]))).
Proof.
  unfold save_to_csv. split.
  - intros other H. destruct (truthy data); [|done]. cbn [negb].
    unfold mbind at 1 2 3 4 5, M_bind at 1 2 3 4 5, open_w at 1, writerow at 1, lift at 1 2.
    cbn [files stdout].
    destruct (py_getitem data "time") as [time|e];
      [|cbn [snd files]; by rewrite !lookup_insert_ne].
    destruct (py_len time) as [n|e];
      [|cbn [snd files]; by rewrite !lookup_insert_ne].
    destruct (write_rows_frame data filename (seq 0 n)
                (World (<[filename := default [] (<[filename := []]> (files w) !! filename)
                                      ++ [header]]> (<[filename := []]> (files w)))
                       (stdout w))) as [_ H2].
    specialize (H2 other H).
    destruct (for_each _ _ _) as [[[]|e] w1]; cbn [snd files print] in *.
    + unfold print. cbn [snd files]. rewrite H2. by rewrite !lookup_insert_ne.
    + rewrite H2. by rewrite !lookup_insert_ne.
  - by intros ->.
Qed.
(** ** The cleaner: failures, frame and idempotence *)

(** X9: the cleaner is all or nothing. When it raises, it has written no
    file and printed nothing; when it returns, it has printed its one
    message and changed no file but the output file. *)
Theorem clean_data_all_or_nothing input_file output_file w :
  (forall e, fst (clean_data input_file output_file w) = Raise e ->
     snd (clean_data input_file output_file w) = w) /\
  (fst (clean_data input_file output_file w) = Ok tt ->
     stdout (snd (clean_data input_file output_file w)) =
       stdout w ++ [cleaned_message output_file] /\
     forall other, other <> output_file ->
       files (snd (clean_data input_file output_file w)) !! other = files w !! other).
Proof.
  rewrite clean_data_run.
  destruct (files w !! input_file) as [file|]; [|by split].
  destruct (cleaned file) as [out|e]; [|by split].
  cbn [fst snd files stdout]. split; [done|]. intros _. split; [done|].
  intros other H. by rewrite lookup_insert_ne.
Qed.




Lemma compare_all_text test series v :
  In v series -> is_float v = false ->
  mapM (compare_with test) series = Raise TypeError.
Proof.
  intros Hin Hv. induction series as [|x series IH]; [done|].
  cbn [mapM]. destruct x as [f|fld]; [|done]. cbn [compare_with mbind outcome_bind].
  destruct Hin as [Hin|Hin]; [by subst|]. by rewrite (IH Hin).
Qed.

(** X11: a text in the Temperature column stops the cleaner. Under the
    four-column header, when no row is wider than the header and some row
    holds in that column a plain text (a text that is no number, no boolean
    word and no marker of a missing value), the comparison with the bounds
    raises a TypeError: no file is written and nothing is printed. *)
Theorem clean_data_text_temperature input_file output_file w body :
  files w !! input_file = Some (header :: body) ->
  Forall (fun row => (length row <= 4)%nat) body ->
  (exists row s, In row body /\ cell 1 row = FText s /\ plain_text s = true) ->
  clean_data input_file output_file w = (Raise TypeError, w).
Proof.
  intros Hfile Hw (row & s & Hrow & Htext & _).
  rewrite clean_data_run, Hfile. unfold cleaned. rewrite read_frame_header.
  assert (W : forallb (fun r => Nat.leb (length r) 4) (data_rows body) = true).
  { apply forallb_forall. intros r [Hr _]%filter_In.
    rewrite List.Forall_forall in Hw. apply Nat.leb_le. by apply Hw. }
  rewrite W. cbn [mbind outcome_bind]. unfold remove_invalid, between.
  rewrite (getcol_at _ "Temperature" 1) by done. cbn [rows mbind outcome_bind].
  unfold ge. rewrite (compare_all_text _ _ (VObj (FText s))); [done| |done].
  apply in_map_iff. exists (parse_row (data_rows body) 4 row). split.
  - rewrite at_column_parse_row by lia. by rewrite Htext.
  - apply in_map. apply filter_In. split; [done|]. by destruct row.
Qed.

Lemma clean_data_text_temperature_witness :
  clean_data "weather_data.csv" "cleaned_data.csv" text_world = (Raise TypeError, text_world).
Proof.
  apply (clean_data_text_temperature "weather_data.csv" "cleaned_data.csv" text_world
           [[FText "t0"; FText "unknown"; FNum 50; FNum 10];
            [FText "t1"; FNum 20; FNum 50; FNum 10]]).
  - reflexivity.
  - repeat constructor.
  - eexists _, "unknown". split; [left; reflexivity | split; reflexivity].
Defined.

(** X12: a file that can be read and has no column labelled Temperature
    stops the cleaner with a KeyError: no file is written and nothing is
    printed. *)
Theorem clean_data_without_temperature input_file output_file w file df :
  files w !! input_file = Some file ->
  read_frame file = Ok df ->
  position "Temperature" (columns df) = None ->
  clean_data input_file output_file w = (Raise KeyError, w).
Proof.
  intros Hfile Hread Hpos. rewrite clean_data_run, Hfile. unfold cleaned.
  rewrite Hread. cbn [mbind outcome_bind]. unfold remove_invalid, between, getcol.
  by rewrite Hpos.
Qed.

Lemma clean_data_without_temperature_witness :
  clean_data "weather_data.csv" "cleaned_data.csv" other_header_world =
    (Raise KeyError, other_header_world).
Proof.
  eapply (clean_data_without_temperature "weather_data.csv" "cleaned_data.csv"
            other_header_world); reflexivity.
Defined.
(** ** The summarizer on what the cleaner wrote *)

(** X13: the summarizer only reads: it changes no file, and when it raises
    it has printed nothing. *)
Theorem summarize_data_read_only filename w :
  files (snd (summarize_data filename w)) = files w /\
  (forall e, fst (summarize_data filename w) = Raise e ->
     snd (summarize_data filename w) = w).
Proof.
  rewrite summarize_data_run.
  destruct (files w !! filename) as [file|]; [|done].
  destruct (read_frame file) as [df|]; [|done].
  destruct (empty df); [done|].
  by destruct (summary df).
Qed.

Lemma dropna_within lo hi series :
  Forall (fun v => within lo hi v = true) series ->
  exists xs, dropna series = Ok xs /\ length xs = length series /\
             Forall (fun x => within lo hi (VFloat x) = true) xs.
Proof.
  induction 1 as [|v series Hv _ (xs & E & L & F)]; [by exists []|].
  destruct v as [f|]; [|done]. cbn [dropna]. rewrite E. cbn [mbind outcome_bind].
  rewrite (within_not_nan _ _ _ Hv). exists (f :: xs).
  split; [done|]. split; [simpl; congruence | by constructor].
Qed.

Lemma fold_left_choice (op : float -> float -> float) :
  (forall a b, op a b = a \/ op a b = b) ->
  forall rest x, In (fold_left op rest x) (x :: rest).
Proof.
  intros Hop. induction rest as [|y rest IH]; intros x; [by left|].
  cbn [fold_left]. destruct (IH (op x y)) as [E|Hin].
  - rewrite <- E. destruct (Hop x y) as [->| ->]; [by left | by right; left].
  - by right; right.
Qed.

Lemma reduce_choice (op : float -> float -> float) xs :
  (forall a b, op a b = a \/ op a b = b) -> xs <> [] -> In (reduce op xs) xs.
Proof. intros Hop Hxs. destruct xs; [done|]. by apply fold_left_choice. Qed.

Lemma larger_choice a b : larger a b = a \/ larger a b = b.
Proof. unfold larger. destruct (PrimFloat.ltb a b); auto. Qed.

Lemma smaller_choice a b : smaller a b = a \/ smaller a b = b.
Proof. unfold smaller. destruct (PrimFloat.ltb b a); auto. Qed.

Lemma summary_passes body :
  Forall (fun row => passes row = true) body ->
  exists a mx mn d e,
    summary (Frame header body) = Ok (summary_of (length body) a mx mn d e) /\
    (body <> [] -> within 0 60 (VFloat mx) = true /\ within 0 60 (VFloat mn) = true).
Proof.
  intros H.
  assert (H1 : Forall (fun v => within 0 60 v = true) (map (at_column 1) body)).
  { apply Forall_map. eapply Forall_impl; [exact H|].
    intros row Hr. by apply passes_inv in Hr as (?&?&?). }
  assert (H2 : Forall (fun v => is_float v = true) (map (at_column 2) body)).
  { apply Forall_map. eapply Forall_impl; [exact H|].
    intros row Hr. apply passes_inv in Hr as (?&?&?). by eapply within_is_float. }
  assert (H3 : Forall (fun v => is_float v = true) (map (at_column 3) body)).
  { apply Forall_map. eapply Forall_impl; [exact H|].
    intros row Hr. apply passes_inv in Hr as (?&?&?). by eapply within_is_float. }
  destruct (dropna_within _ _ _ H1) as (xs & E & L & F).
  destruct (mean_floats _ H2) as [d Ed]. destruct (mean_floats _ H3) as [e Ee].
  unfold summary.
  rewrite (getcol_at _ "Temperature" 1), (getcol_at _ "Humidity" 2),
    (getcol_at _ "Wind Speed" 3) by done.
  cbn [rows mbind outcome_bind]. rewrite Ed, Ee. unfold mean, max, min. rewrite E.
  cbn [mbind outcome_bind]. eexists _, _, _, d, e. split; [done|].
  intros Hbody.
  assert (Hxs : xs <> []).
  { intros ->. rewrite length_map in L. by destruct body. }
  rewrite List.Forall_forall in F.
  split; apply F; apply reduce_choice;
    auto using larger_choice, smaller_choice.
Qed.

Lemma row_in_range_valid row :
  row_in_range row -> valid row = true /\ length row = 4%nat.
Proof.
  intros (t & a & b & c & -> & [A1 A2] & [B1 B2] & [C1 C2]).
  unfold valid. cbn [cell nth in_range]. by rewrite A1, A2, B1, B2, C1, C2.
Qed.


Lemma read_cleaned out :
  Forall row_in_range out ->
  read_frame (header :: out) = Ok (Frame header (map (parse_row out 4) out)) /\
  Forall (fun row => passes row = true) (map (parse_row out 4) out).
Proof.
  intros H.
  assert (Hv : Forall (fun row => valid row = true /\ length row = 4%nat) out).
  { eapply Forall_impl; [exact H|]. apply row_in_range_valid. }
  assert (D : data_rows out = out).
  { apply filter_all. eapply Forall_impl; [exact Hv|].
    intros row [Hrow _]. by rewrite (valid_not_blank row Hrow). }
  assert (C : forall j, (1 <= j < 4)%nat -> numeric_column out j = true).
  { intros j Hj. apply forallb_forall. rewrite List.Forall_forall in Hv.
    intros row Hrow. destruct (Hv row Hrow) as [(H1 & H2 & H3)%valid_inv _].
    destruct j as [|[|[|[|j]]]]; try lia; by eapply in_range_numeric. }
  rewrite read_frame_header, D. split.
  - rewrite (proj2 (forallb_forall _ _)); [done|]. rewrite List.Forall_forall in Hv.
    intros row Hrow. destruct (Hv row Hrow) as [_ ->]. done.
  - apply Forall_map. eapply Forall_impl; [exact Hv|]. intros row [Hrow _]. simpl.
    rewrite <- Hrow. apply valid_inv in Hrow as (H1 & H2 & H3).
    apply passes_parse_row; intros; rewrite at_column_parse_row, C by lia;
      apply parse_numeric; by eapply in_range_numeric.
Qed.

Lemma summarize_cleaned filename w out :
  files w !! filename = Some (header :: out) ->
  Forall row_in_range out ->
  (out = [] /\
   summarize_data filename w =
     (Ok tt, World (files w) (stdout w ++ [no_data_to_summarize]))) \/
  (out <> [] /\
   exists a mx mn d e,
     summarize_data filename w =
       (Ok tt, World (files w)
                     (stdout w ++ summary_title ::
                        map summary_line (summary_of (length out) a mx mn d e))) /\
     within 0 60 (VFloat mx) = true /\ within 0 60 (VFloat mn) = true).
Proof.
  intros Hfile H. destruct (read_cleaned out H) as [Hread Hpass].
  rewrite summarize_data_run, Hfile, Hread.
  destruct out as [|row out]; [by left|]. right. split; [done|].
  destruct (summary_passes _ Hpass) as (a & mx & mn & d & e & Es & Hr).
  exists a, mx, mn, d, e. change (empty _) with false. cbv iota. rewrite Es.
  rewrite length_map. split; [done|]. by apply Hr.
Qed.
Lemma cleaned_rows_in_range body out :
  cleaned (header :: body) = Ok out ->
  exists rows, out = header :: rows /\ Forall row_in_range rows.
Proof.
  intros [_ ->]%cleaned_header_rows. eexists. split; [done|].
  apply Forall_map. eapply Forall_impl; [apply Forall_filter_true|].
  intros row Hrow. by apply cleaned_row_in_range.
Qed.

(** X14: the summarizer never fails on what the cleaner wrote. After a run
    of the cleaner under the four-column header, summarizing its output
    either reports that there is no data, when no row was kept, or prints the
    title and the six metrics, the first one for the number of rows kept. *)
Theorem summarize_after_clean input_file output_file w body w1 :
  files w !! input_file = Some (header :: body) ->
  clean_data input_file output_file w = (Ok tt, w1) ->
  exists out,
    files w1 !! output_file = Some (header :: out) /\
    ((out = [] /\
      summarize_data output_file w1 =
        (Ok tt, World (files w1) (stdout w1 ++ [no_data_to_summarize]))) \/
     (out <> [] /\
      exists a mx mn d e,
        summarize_data output_file w1 =
          (Ok tt, World (files w1)
                        (stdout w1 ++ summary_title ::
                           map summary_line (summary_of (length out) a mx mn d e))))).
Proof.
  intros Hfile. rewrite clean_data_run, Hfile.
  destruct (cleaned (header :: body)) as [out|] eqn:E; [|done].
  intros [= <-]. apply cleaned_rows_in_range in E as (rows & -> & Hrows).
  exists rows. cbn [files]. rewrite lookup_insert_eq. split; [done|].
  destruct (summarize_cleaned output_file
              (World (<[output_file := header :: rows]> (files w))
                     (stdout w ++ [cleaned_message output_file])) rows)
    as [[-> E] | (Hne & a & mx & mn & d & e & E & _)];
    [cbn [files]; apply lookup_insert_eq | done | |].
  - left. by rewrite E.
  - right. split; [done|]. exists a, mx, mn, d, e. by rewrite E.
Qed.

Lemma summarize_after_clean_witness :
  exists out,
    files (snd (clean_data "weather_data.csv" "cleaned_data.csv" sample_world))
      !! "cleaned_data.csv" = Some (header :: out) /\
    ((out = [] /\
      summarize_data "cleaned_data.csv"
        (snd (clean_data "weather_data.csv" "cleaned_data.csv" sample_world)) =
        (Ok tt,
         World (files (snd (clean_data "weather_data.csv" "cleaned_data.csv" sample_world)))
               (stdout (snd (clean_data "weather_data.csv" "cleaned_data.csv" sample_world))
                ++ [no_data_to_summarize]))) \/
     (out <> [] /\
      exists a mx mn d e,
        summarize_data "cleaned_data.csv"
          (snd (clean_data "weather_data.csv" "cleaned_data.csv" sample_world)) =
          (Ok tt,
           World (files (snd (clean_data "weather_data.csv" "cleaned_data.csv" sample_world)))
                 (stdout (snd (clean_data "weather_data.csv" "cleaned_data.csv" sample_world))
                  ++ summary_title ::
                     map summary_line (summary_of (length out) a mx mn d e))))).
Proof.
  apply (summarize_after_clean "weather_data.csv" "cleaned_data.csv" sample_world sample_rows).
  - reflexivity.
  - vm_compute. reflexivity.
Defined.

(** X15: the extremes reported after cleaning are inside the Temperature
    interval. For the frame read from the output of the cleaner, when it has
    a row, the Max Temperature and the Min Temperature of the summary lie in
    [0,60]. *)
Theorem summary_extremes_in_range input_file output_file w body w1 file df entries mx mn :
  files w !! input_file = Some (header :: body) ->
  clean_data input_file output_file w = (Ok tt, w1) ->
  files w1 !! output_file = Some file ->
  read_frame file = Ok df ->
  rows df <> [] ->
  summary df = Ok entries ->
  In ("Max Temperature", Float mx) entries ->
  In ("Min Temperature", Float mn) entries ->
  (PrimFloat.leb 0 mx = true /\ PrimFloat.leb mx 60 = true) /\
  (PrimFloat.leb 0 mn = true /\ PrimFloat.leb mn 60 = true).
Proof.
  intros Hfile. rewrite clean_data_run, Hfile.
  destruct (cleaned (header :: body)) as [out|] eqn:E; [|done].
  intros [= <-]. apply cleaned_rows_in_range in E as (out' & -> & Hrows).
  cbn [files]. rewrite lookup_insert_eq. intros [= <-].
  destruct (read_cleaned out' Hrows) as [-> Hpass]. intros [= <-]. cbn [rows].
  intros Hne. destruct (summary_passes _ Hpass) as (a & mx' & mn' & d & e & -> & Hr).
  intros [= <-] Hmx Hmn. destruct (Hr Hne) as [Rmx Rmn].
  assert (mx = mx') as ->.
  { unfold summary_of in Hmx. simpl in Hmx.
    repeat (destruct Hmx as [Hmx | Hmx]; [try discriminate Hmx|]); [|done].
    by injection Hmx. }
  assert (mn = mn') as ->.
  { unfold summary_of in Hmn. simpl in Hmn.
    repeat (destruct Hmn as [Hmn | Hmn]; [try discriminate Hmn|]); [|done].
    by injection Hmn. }
  simpl in Rmx, Rmn. by apply andb_true_iff in Rmx, Rmn.
Qed.

Lemma summary_extremes_in_range_witness :
  (PrimFloat.leb 0 20 = true /\ PrimFloat.leb 20 60 = true) /\
  (PrimFloat.leb 0 20 = true /\ PrimFloat.leb 20 60 = true).
Proof.
  apply (summary_extremes_in_range "weather_data.csv" "cleaned_data.csv" sample_world
           sample_rows
           (snd (clean_data "weather_data.csv" "cleaned_data.csv" sample_world))
           [header; [FText "t0"; FNum 20; FNum 50; FNum 10]]
           (Frame header [[VObj (FText "t0"); VFloat 20; VFloat 50; VFloat 10]])
           (summary_of 1 20 20 20 50 10)).
  - reflexivity.
  - vm_compute. reflexivity.
  - vm_compute. reflexivity.
  - vm_compute. reflexivity.
  - discriminate.
  - vm_compute. reflexivity.
  - right. right. left. reflexivity.
  - right. right. right. left. reflexivity.
Defined.
(** ** The pipeline from end to end *)

Lemma getitem_contains data key v :
  py_getitem data key = Ok v -> py_contains key data = Ok true.
Proof.
  destruct data as [| | | |items]; try done. cbn [py_getitem py_contains].
  destruct (dict_get items key) eqn:E; [|done]. intros _.
  by rewrite bool_decide_eq_true_2.
Qed.






(** X17: on status 200, when the body is an object with no [hourly] member,
    or with one that can be searched and has no [temperature_2m], the
    pipeline prints the warning and stops: no later stage runs and every file
    is as it was. *)
Theorem main_without_hourly response items w :
  status_code response = 200%Z ->
  json_body response = Some (PDict items) ->
  dict_get items "hourly" = None \/
  (exists hourly, dict_get items "hourly" = Some hourly /\
                  py_contains "temperature_2m" hourly = Ok false) ->
  main response w = (Ok tt, World (files w) (stdout w ++ [hourly_missing])).
Proof.
  intros Hs Hb H. unfold main, mbind, M_bind.
  by rewrite (fetch_200_missing response items w Hs Hb H).
Qed.

Lemma main_without_hourly_witness :
  main (Response 200 (Some (PDict [("error", PStr "bad request")]))) sample_world =
    (Ok tt, World (files sample_world) (stdout sample_world ++ [hourly_missing])).
Proof.
  apply (main_without_hourly (Response 200 (Some (PDict [("error", PStr "bad request")])))
           [("error", PStr "bad request")]).
  - reflexivity.
  - reflexivity.
  - left. reflexivity.
Defined.

(** X18: a failure of the writer stops the pipeline. On status 200, when a
    numeric sequence of the [hourly] member is shorter than [time], the
    pipeline ends with the IndexError of the writer: the raw file is left with
    the header and the rows before the missing position, and neither the
    cleaner nor the summarizer runs, so no cleaned file is written and
    nothing is printed. *)
Theorem main_stops_at_short_sequence response body data w
    time temperature humidity wind :
  status_code response = 200%Z ->
  json_body response = Some body ->
  py_getitem body "hourly" = Ok data ->
  py_getitem data "time" = Ok (PList time) ->
  py_getitem data "temperature_2m" = Ok (PList temperature) ->
  py_getitem data "relative_humidity_2m" = Ok (PList humidity) ->
  py_getitem data "wind_speed_10m" = Ok (PList wind) ->
  (Nat.min (length temperature) (Nat.min (length humidity) (length wind)) < length time)%nat ->
  main response w =
    (Raise IndexError,
     World (<["weather_data.csv" := header :: table time temperature humidity wind]> (files w))
           (stdout w)).
Proof.
  intros Hs Hb Hh H1 H2 H3 H4 Hshort.
  unfold main. unfold mbind at 1, M_bind at 1.
  rewrite (fetch_200_hourly response body data w Hs Hb Hh (getitem_contains _ _ _ H2)).
  rewrite (truthy_getitem _ _ _ H1).
  unfold mbind at 1, M_bind at 1.
  rewrite (save_to_csv_start data "weather_data.csv" time H1).
  rewrite (write_rows_absent data "weather_data.csv" time temperature humidity wind
             H1 H2 H3 H4 (length time) 0 _ [header]);
    [|lia|lia|lia|cbn [files]; apply lookup_insert_eq].
  cbn [files stdout]. rewrite insert_insert_eq, Nat.sub_0_r.
  by rewrite table_rows_min, (Nat.min_r (length time)) by lia.
Qed.

Lemma main_stops_at_short_sequence_witness :
  main (Response 200 (Some (PDict [("hourly", short_batch)]))) (World ∅ []) =
    (Raise IndexError,
     World (<["weather_data.csv" :=
                header :: table [PStr "t0"; PStr "t1"] [PNum 20]
                                [PNum 50; PNum 40] [PNum 10; PNum 20]]> ∅) []).
Proof.
  apply (main_stops_at_short_sequence (Response 200 (Some (PDict [("hourly", short_batch)])))
           (PDict [("hourly", short_batch)]) short_batch (World ∅ []));
    try reflexivity.
  simpl. lia.
Defined.

(** X19: a path that names no file. The cleaner and the summarizer raise a
    FileNotFoundError on it and leave the world as it was; the cleaner
    creates no output file. *)
Theorem missing_file_not_found path output_file w :
  files w !! path = None ->
  clean_data path output_file w = (Raise FileNotFoundError, w) /\
  summarize_data path w = (Raise FileNotFoundError, w).
Proof.
  intros H. by rewrite clean_data_run, summarize_data_run, H.
Qed.

Lemma missing_file_not_found_witness :
  clean_data "weather_data.csv" "cleaned_data.csv" (World ∅ []) =
    (Raise FileNotFoundError, World ∅ []) /\
  summarize_data "weather_data.csv" (World ∅ []) = (Raise FileNotFoundError, World ∅ []).
Proof. apply missing_file_not_found. reflexivity. Defined.
